(** * Request signing and credential refresh of the NoSQL Go SDK (package iam)

    A shallow embedding of [nosqldb/auth/iam/http_signer.go] and of the
    URL-based certificate retriever exercised by
    [nosqldb/auth/iam/certificate_retriever_test.go].

    Go values are modelled as follows.
    - [string] is a Go string read as a sequence of 8-bit characters.
      [strings.ToLower] is modelled on ASCII strings, where it lower-cases
      the letters A to Z; a string with a byte above 127, which Go maps
      letter by letter through [unicode.ToLower], is outside the model, and
      the statements that depend on it are stated for ASCII methods and
      header names ([isASCII]).
    - [list byte] is a Go [[]byte].
    - [int64] values are integers in [Z]; the only one computed here is a
      slice length, which is within range.
    - an [http.Header] is a finite map from keys to lists of values.
    - a request body is a reader with an explicit pending content, so that
      consuming it is visible in the state.
    - a call that dereferences a nil interface ends in [Panicked]. *)

From Stdlib Require Import ZArith String Ascii List DecimalString Lia.
From Stdlib.Strings Require Import Byte.
From stdpp Require Import base option list strings gmap.

Local Open Scope Z_scope.

(** ** Bytes and strings *)

Definition byte_of_Z (x : Z) : byte :=
  match Byte.of_N (Z.to_N (x mod 256)) with
  | Some b => b
  | None => x00
  end.

Definition Z_of_byte (b : byte) : Z := Z.of_N (Byte.to_N b).

Definition Z_of_ascii (c : ascii) : Z := Z.of_N (N_of_ascii c).

Definition ascii_of_Z (x : Z) : ascii := ascii_of_N (Z.to_N x).

(** The double quote, built from its code. *)
Definition dquote : string := String (ascii_of_Z 34) "".

(** [unicode.ToLower] and [unicode.ToUpper] on one ASCII character. *)
Definition lower_ascii (c : ascii) : ascii :=
  let n := Z_of_ascii c in
  if (65 <=? n) && (n <=? 90) then ascii_of_Z (n + 32) else c.

Definition upper_ascii (c : ascii) : ascii :=
  let n := Z_of_ascii c in
  if (97 <=? n) && (n <=? 122) then ascii_of_Z (n - 32) else c.

(** The test of [strings.ToLower] for its ASCII path: no byte above 127. *)
Fixpoint isASCII (s : string) : bool :=
  match s with
  | EmptyString => true
  | String c rest => (Z_of_ascii c <? 128) && isASCII rest
  end.

(** [strings.ToLower] on an ASCII string ([isASCII]): the letters A to Z are
    lower-cased and every other byte is kept. On a string that is not ASCII
    Go lower-cases every Unicode letter; such strings are outside the model
    (this function leaves their bytes above 127 as they are). *)
Fixpoint strings_ToLower (s : string) : string :=
  match s with
  | EmptyString => EmptyString
  | String c rest => String (lower_ascii c) (strings_ToLower rest)
  end.

(** [strings.Join]: the empty slice gives the empty string, a single element
    is returned as it is, and otherwise the separator is written between
    consecutive elements. *)
Fixpoint strings_Join_rest (elems : list string) (sep : string) : string :=
  match elems with
  | [] => ""
  | e :: rest => sep +:+ e +:+ strings_Join_rest rest sep
  end.

Definition strings_Join (elems : list string) (sep : string) : string :=
  match elems with
  | [] => ""
  | [e] => e
  | e :: rest => e +:+ strings_Join_rest rest sep
  end.

(** [strings.HasPrefix]. *)
Definition strings_HasPrefix (s prefix : string) : bool := String.prefix prefix s.

(** [fmt.Sprintf("%v", n)] for an [int64]: the decimal numeral. *)
Definition fmt_int64 (n : Z) : string := NilZero.string_of_int (Z.to_int n).

(** The line feed used to join the lines of the signing string. *)
Definition newline : string := String (ascii_of_Z 10) "".

(** ** [encoding/base64]: [StdEncoding.EncodeToString] *)

Definition encodeStd : string :=
  "ABCDEFGHIJKLMNOPQRSTUVWXYZabcdefghijklmnopqrstuvwxyz0123456789+/".

Definition base64_digit (i : Z) : string :=
  match String.get (Z.to_nat (i mod 64)) encodeStd with
  | Some c => String c ""
  | None => ""
  end.

Fixpoint base64_EncodeToString (src : list byte) : string :=
  match src with
  | [] => ""
  | [a] =>
      let v := Z.shiftl (Z_of_byte a) 16 in
      base64_digit (Z.shiftr v 18) +:+ base64_digit (Z.shiftr v 12) +:+ "=="
  | [a; b] =>
      let v := Z.lor (Z.shiftl (Z_of_byte a) 16) (Z.shiftl (Z_of_byte b) 8) in
      base64_digit (Z.shiftr v 18) +:+ base64_digit (Z.shiftr v 12)
        +:+ base64_digit (Z.shiftr v 6) +:+ "="
  | a :: b :: c :: rest =>
      let v := Z.lor (Z.lor (Z.shiftl (Z_of_byte a) 16) (Z.shiftl (Z_of_byte b) 8))
                     (Z_of_byte c) in
      base64_digit (Z.shiftr v 18) +:+ base64_digit (Z.shiftr v 12)
        +:+ base64_digit (Z.shiftr v 6) +:+ base64_digit v
        +:+ base64_EncodeToString rest
  end.

(** ** [crypto/sha256]: [Sum256] (FIPS 180-4), on 32-bit words kept in [Z] *)

Definition w32 (x : Z) : Z := x mod 2 ^ 32.

Definition add32 (x y : Z) : Z := w32 (x + y).

Definition rotr (n x : Z) : Z :=
  Z.lor (Z.shiftr x n) (w32 (Z.shiftl x (32 - n))).

Definition sha_Ch (x y z : Z) : Z := Z.lxor (Z.land x y) (Z.ldiff z x).

Definition sha_Maj (x y z : Z) : Z :=
  Z.lxor (Z.lxor (Z.land x y) (Z.land x z)) (Z.land y z).

Definition bigSigma0 (x : Z) : Z := Z.lxor (Z.lxor (rotr 2 x) (rotr 13 x)) (rotr 22 x).
Definition bigSigma1 (x : Z) : Z := Z.lxor (Z.lxor (rotr 6 x) (rotr 11 x)) (rotr 25 x).
Definition smallSigma0 (x : Z) : Z := Z.lxor (Z.lxor (rotr 7 x) (rotr 18 x)) (Z.shiftr x 3).
Definition smallSigma1 (x : Z) : Z := Z.lxor (Z.lxor (rotr 17 x) (rotr 19 x)) (Z.shiftr x 10).

(** Round constants: the first 32 bits of the fractional parts of the cube
    roots of the first 64 primes. *)
Definition sha_K : list Z :=
  [ 1116352408; 1899447441; 3049323471; 3921009573; 961987163; 1508970993;
    2453635748; 2870763221; 3624381080; 310598401; 607225278; 1426881987;
    1925078388; 2162078206; 2614888103; 3248222580; 3835390401; 4022224774;
    264347078; 604807628; 770255983; 1249150122; 1555081692; 1996064986;
    2554220882; 2821834349; 2952996808; 3210313671; 3336571891; 3584528711;
    113926993; 338241895; 666307205; 773529912; 1294757372; 1396182291;
    1695183700; 1986661051; 2177026350; 2456956037; 2730485921; 2820302411;
    3259730800; 3345764771; 3516065817; 3600352804; 4094571909; 275423344;
    430227734; 506948616; 659060556; 883997877; 958139571; 1322822218;
    1537002063; 1747873779; 1955562222; 2024104815; 2227730452; 2361852424;
    2428436474; 2756734187; 3204031479; 3329325298 ].

Record sha_state := ShaState {
  sa : Z; sb : Z; sc : Z; sd : Z; se : Z; sf : Z; sg : Z; sh : Z }.

(** Initial hash value: the first 32 bits of the fractional parts of the
    square roots of the first 8 primes. *)
Definition sha_H0 : sha_state :=
  ShaState 1779033703 3144134277 1013904242 2773480762
           1359893119 2600822924 528734635 1541459225.

(** Padding: a 1 bit, zeros up to 56 modulo 64, the bit length on 8 bytes. *)
Definition sha_pad (msg : list byte) : list Z :=
  let len := Z.of_nat (length msg) in
  let zeros := Z.to_nat ((55 - len) mod 64) in
  let bits := 8 * len in
  (Z_of_byte <$> msg) ++ [128] ++ replicate zeros 0
    ++ ((fun i => Z.shiftr bits (8 * i) mod 256) <$> [7; 6; 5; 4; 3; 2; 1; 0]).

(** Big-endian 32-bit words of a byte sequence. *)
Fixpoint sha_words (bs : list Z) : list Z :=
  match bs with
  | a :: b :: c :: d :: rest =>
      Z.lor (Z.lor (Z.shiftl a 24) (Z.shiftl b 16)) (Z.lor (Z.shiftl c 8) d)
        :: sha_words rest
  | _ => []
  end.

(** Message schedule, most recent word first: [n] more words are added to the
    16 of the block. *)
Fixpoint sha_schedule (n : nat) (rev_w : list Z) : list Z :=
  match n with
  | O => rev_w
  | S n' =>
      let at_ i := nth i rev_w 0 in
      let w := add32 (add32 (smallSigma1 (at_ 1%nat)) (at_ 6%nat))
                     (add32 (smallSigma0 (at_ 14%nat)) (at_ 15%nat)) in
      sha_schedule n' (w :: rev_w)
  end.

Definition sha_round (st : sha_state) (kw : Z * Z) : sha_state :=
  let t1 := add32 (add32 (add32 (sh st) (bigSigma1 (se st)))
                         (add32 (sha_Ch (se st) (sf st) (sg st)) (fst kw))) (snd kw) in
  let t2 := add32 (bigSigma0 (sa st)) (sha_Maj (sa st) (sb st) (sc st)) in
  ShaState (add32 t1 t2) (sa st) (sb st) (sc st) (add32 (sd st) t1) (se st) (sf st) (sg st).

Definition sha_block (st : sha_state) (block : list Z) : sha_state :=
  let w := rev (sha_schedule 48 (rev block)) in
  let r := fold_left sha_round (combine sha_K w) st in
  ShaState (add32 (sa st) (sa r)) (add32 (sb st) (sb r)) (add32 (sc st) (sc r))
           (add32 (sd st) (sd r)) (add32 (se st) (se r)) (add32 (sf st) (sf r))
           (add32 (sg st) (sg r)) (add32 (sh st) (sh r)).

Fixpoint sha_blocks (fuel : nat) (st : sha_state) (ws : list Z) : sha_state :=
  match fuel, ws with
  | S fuel', _ :: _ => sha_blocks fuel' (sha_block st (take 16 ws)) (drop 16 ws)
  | _, _ => st
  end.

Definition sha_word_bytes (w : Z) : list byte :=
  (fun i => byte_of_Z (Z.shiftr w (8 * i))) <$> [3; 2; 1; 0].

Definition sha256_Sum256 (data : list byte) : list byte :=
  let ws := sha_words (sha_pad data) in
  let st := sha_blocks (length ws) sha_H0 ws in
  concat (sha_word_bytes <$> [sa st; sb st; sc st; sd st; se st; sf st; sg st; sh st]).

(** ** Errors and results *)

(** A Go [error] value, identified with its message ([err.Error()]). *)
Record error := errors_New { Error : string }.

(** What a call produces: a value, an error value, or a run-time panic. *)
Inductive result (A : Type) : Type :=
  | Ok (a : A)
  | Failed (err : error)
  | Panicked.

Arguments Ok {A} a.
Arguments Failed {A} err.
Arguments Panicked {A}.

(** ** [net/textproto] and [net/http]: header maps *)

(** [validHeaderFieldByte]: the token characters of RFC 7230. *)
Definition validHeaderFieldByte (c : ascii) : bool :=
  let n := Z_of_ascii c in
  ((48 <=? n) && (n <=? 57)) || ((65 <=? n) && (n <=? 90)) || ((97 <=? n) && (n <=? 122))
  || bool_decide (n ∈ [33; 35; 36; 37; 38; 39; 42; 43; 45; 46; 94; 95; 96; 124; 126]).

Fixpoint validHeaderField (s : string) : bool :=
  match s with
  | EmptyString => true
  | String c rest => validHeaderFieldByte c && validHeaderField rest
  end.

(** The rewriting loop of [canonicalMIMEHeaderKey]: upper case for the first
    letter and after each dash, lower case elsewhere. *)
Fixpoint canonical_from (upper : bool) (s : string) : string :=
  match s with
  | EmptyString => EmptyString
  | String c rest =>
      let c' := if upper then upper_ascii c else lower_ascii c in
      String c' (canonical_from (Ascii.eqb c' "-") rest)
  end.

(** [textproto.CanonicalMIMEHeaderKey]: a key holding a space or a byte that
    is no token character is returned unchanged. *)
Definition textproto_CanonicalMIMEHeaderKey (s : string) : string :=
  if validHeaderField s then canonical_from true s else s.

Module url.

(** The fields of [url.URL] that [RequestURI] reads; [EscapedPath] stands for
    the value of the method of that name. *)
Record URL := {
  Scheme : string;
  Opaque : string;
  Host : string;
  EscapedPath : string;
  ForceQuery : bool;
  RawQuery : string }.

(** [URL.RequestURI]: the path and query that go on the request line. *)
Definition RequestURI (u : URL) : string :=
  let result :=
    if String.eqb (Opaque u) "" then
      (if String.eqb (EscapedPath u) "" then "/" else EscapedPath u)
    else
      (if strings_HasPrefix (Opaque u) "//" then Scheme u +:+ ":" +:+ Opaque u else Opaque u) in
  if ForceQuery u || negb (String.eqb (RawQuery u) "")
  then result +:+ "?" +:+ RawQuery u
  else result.

End url.

Module io.

(** A reader that delivers [pending] and then reports [readErr] (or the end
    of the stream when there is none); [Close] reports [closeErr]. *)
Record Stream := {
  pending : list byte;
  readErr : option error;
  closeErr : option error }.

(** An [io.ReadCloser]: the [http.NoBody] sentinel or a stream. *)
Inductive ReadCloser :=
  | NoBody
  | Reader (s : Stream).

(** Reading to the end, as [bytes.Buffer.ReadFrom] and [io.ReadAll] do:
    the bytes obtained, the error that stopped the read if any, and the
    reader afterwards, with nothing left to deliver. *)
Definition ReadAll (b : ReadCloser) : list byte * option error * ReadCloser :=
  match b with
  | NoBody => ([], None, NoBody)
  | Reader s =>
      (pending s, readErr s,
       Reader {| pending := []; readErr := readErr s; closeErr := closeErr s |})
  end.

Definition Close (b : ReadCloser) : option error :=
  match b with
  | NoBody => None
  | Reader s => closeErr s
  end.

(** [io.NopCloser] over an in-memory buffer holding [data]. *)
Definition NopCloser (data : list byte) : ReadCloser :=
  Reader {| pending := data; readErr := None; closeErr := None |}.

End io.

Module http.

Abbreviation Header_t := (gmap string (list string)).

(** [Header.Get]: the first value stored under the canonical form of [key],
    the empty string when there is none. *)
Definition Header_Get (h : Header_t) (key : string) : string :=
  match h !! textproto_CanonicalMIMEHeaderKey key with
  | Some (v :: _) => v
  | _ => ""
  end.

(** [Header.Set]: replaces the values stored under the canonical form of
    [key] by the single [value]. *)
Definition Header_Set (h : Header_t) (key value : string) : Header_t :=
  <[textproto_CanonicalMIMEHeaderKey key := [value]]> h.

(** The fields of [http.Request] the signer reads or writes. [Header] is a
    non-nil map and [URL] a non-nil URL, as [http.NewRequest] builds them; a
    request with a nil [Header], on which [Header.Set] panics, or with a nil
    [URL] is outside the model. *)
Record Request := {
  Method : string;
  URL : url.URL;
  Header : Header_t;
  Body : option io.ReadCloser;
  ContentLength : Z;
  Host : string }.

Definition with_Header (r : Request) (h : Header_t) : Request :=
  {| Method := Method r; URL := URL r; Header := h; Body := Body r;
     ContentLength := ContentLength r; Host := Host r |}.

Definition with_Body (r : Request) (b : option io.ReadCloser) : Request :=
  {| Method := Method r; URL := URL r; Header := Header r; Body := b;
     ContentLength := ContentLength r; Host := Host r |}.

Definition with_ContentLength (r : Request) (n : Z) : Request :=
  {| Method := Method r; URL := URL r; Header := Header r; Body := Body r;
     ContentLength := n; Host := Host r |}.

Definition MethodPost : string := "POST".
Definition MethodPut : string := "PUT".
Definition MethodPatch : string := "PATCH".

End http.

(** ** [time] *)

(** An instant, in nanoseconds from the epoch, and a duration in nanoseconds. *)
Definition Time : Type := Z.
Definition time_Second : Z := 1000000000.
Definition Time_Add (t : Time) (d : Z) : Time := t + d.
Definition Time_Before (t u : Time) : Prop := t < u.

(** ** [crypto/rsa] *)

Record rsa_PrivateKey := { rsa_N : Z; rsa_E : Z; rsa_D : Z }.

(** ** The key provider *)

Module KeyProvider.

(** The answers of a [KeyProvider] at one credential snapshot, one field per
    method of the interface. [PrivateRSAKey] answers with a key or with an
    error; an implementation that returns a nil key together with a nil
    error, on which [rsa.SignPKCS1v15] would panic, is outside the model. *)
Record t := {
  PrivateRSAKey : rsa_PrivateKey + error;
  KeyID : string + error;
  ExpirationTime : Time }.

End KeyProvider.

(** ** The request signer ([http_signer.go]) *)

Definition signerVersion : string := "1".

(** [SignerBodyHashPredicate]. *)
Definition SignerBodyHashPredicate : Type := http.Request -> bool.

Record ociRequestSigner := {
  KeyProvider : option KeyProvider.t;
  GenericHeaders : list string;
  BodyHeaders : list string;
  ShouldHashBody : SignerBodyHashPredicate }.

Definition defaultGenericHeaders : list string := ["date"; "(request-target)"; "host"].
Definition defaultDelegationHeaders : list string :=
  ["date"; "(request-target)"; "host"; "opc-obo-token"].
Definition defaultBodyHeaders : list string :=
  ["content-length"; "content-type"; "x-content-sha256"].

Definition defaultBodyHashPredicate : SignerBodyHashPredicate := fun r =>
  if String.eqb (http.Header_Get (http.Header r) "X-Nosql-Hash-Body") "true" then true
  else String.eqb (http.Method r) http.MethodPost
       || String.eqb (http.Method r) http.MethodPut
       || String.eqb (http.Method r) http.MethodPatch.

(** The predicate built inside [RequestSignerExcludeBody] and
    [DelegationRequestSignerExcludeBody]. *)
Definition excludeBodyHashPredicate : SignerBodyHashPredicate := fun r =>
  String.eqb (http.Header_Get (http.Header r) "X-Nosql-Hash-Body") "true".

Definition RequestSigner (provider : option KeyProvider.t)
    (genericHeaders bodyHeaders : list string) : ociRequestSigner :=
  {| KeyProvider := provider;
     GenericHeaders := genericHeaders;
     BodyHeaders := bodyHeaders;
     ShouldHashBody := defaultBodyHashPredicate |}.

Definition RequestSignerWithBodyHashingPredicate (provider : option KeyProvider.t)
    (genericHeaders bodyHeaders : list string)
    (shouldHashBody : SignerBodyHashPredicate) : ociRequestSigner :=
  {| KeyProvider := provider;
     GenericHeaders := genericHeaders;
     BodyHeaders := bodyHeaders;
     ShouldHashBody := shouldHashBody |}.

Definition DefaultRequestSigner (provider : option KeyProvider.t) : ociRequestSigner :=
  RequestSigner provider defaultGenericHeaders defaultBodyHeaders.

Definition DelegationRequestSigner (provider : option KeyProvider.t) : ociRequestSigner :=
  RequestSigner provider defaultDelegationHeaders defaultBodyHeaders.

Definition RequestSignerExcludeBody (provider : option KeyProvider.t) : ociRequestSigner :=
  RequestSignerWithBodyHashingPredicate provider defaultGenericHeaders defaultBodyHeaders
    excludeBodyHashPredicate.

Definition DelegationRequestSignerExcludeBody (provider : option KeyProvider.t)
    : ociRequestSigner :=
  RequestSignerWithBodyHashingPredicate provider defaultDelegationHeaders defaultBodyHeaders
    excludeBodyHashPredicate.

(** [NewSignerFromOCIRequestSigner], on a signer of type [ociRequestSigner]
    (the only implementation of the interface in the package; any other
    signer is answered by an error). *)
Definition NewSignerFromOCIRequestSigner (oldS : ociRequestSigner)
    (predicate : SignerBodyHashPredicate) : ociRequestSigner :=
  {| KeyProvider := KeyProvider oldS;
     GenericHeaders := GenericHeaders oldS;
     BodyHeaders := BodyHeaders oldS;
     ShouldHashBody := predicate |}.

Definition getSigningHeaders (signer : ociRequestSigner) (r : http.Request) : list string :=
  let result := [] ++ GenericHeaders signer in
  if ShouldHashBody signer r then result ++ BodyHeaders signer else result.

(** [ExpirationTime], given the instant [now] that [time.Now()] returns. *)
Definition ExpirationTime (now : Time) (signer : ociRequestSigner) : Time :=
  match KeyProvider signer with
  | None => Time_Add now (- time_Second)
  | Some provider => KeyProvider.ExpirationTime provider
  end.

Definition getRequestTarget (request : http.Request) : string :=
  let lowercaseMethod := strings_ToLower (http.Method request) in
  lowercaseMethod +:+ " " +:+ url.RequestURI (http.URL request).

(** The body of the loop of [getSigningString] for one header name. *)
Definition signingPart (request : http.Request) (part : string) : string :=
  let part := strings_ToLower part in
  let value :=
    if String.eqb part "(request-target)" then getRequestTarget request
    else if String.eqb part "host" then
      (let value := url.Host (http.URL request) in
       if (String.length value =? 0)%nat then http.Host request else value)
    else http.Header_Get (http.Header request) part in
  part +:+ ": " +:+ value.

(** The loop of [getSigningString]: slot [i] of [signingParts] receives the
    line of the [i]-th signing header. *)
Fixpoint fillSigningParts (request : http.Request) (i : nat)
    (signingHeaders signingParts : list string) : list string :=
  match signingHeaders with
  | [] => signingParts
  | part :: rest =>
      fillSigningParts request (S i) rest (<[i := signingPart request part]> signingParts)
  end.

Definition getSigningString (signer : ociRequestSigner) (request : http.Request) : string :=
  let signingHeaders := getSigningHeaders signer request in
  let signingParts := replicate (length signingHeaders) "" in
  let signingParts := fillSigningParts request 0 signingHeaders signingParts in
  strings_Join signingParts newline.

(** [drainBody]: the reader to hash from (absent on failure), the reader
    left in the request, and the error. *)
Definition drainBody (b : io.ReadCloser)
    : option io.ReadCloser * io.ReadCloser * option error :=
  match b with
  | io.NoBody => (Some io.NoBody, io.NoBody, None)
  | _ =>
      let '(buf, err, b) := io.ReadAll b in
      match err with
      | Some e => (None, b, Some e)
      | None =>
          match io.Close b with
          | Some e => (None, b, Some e)
          | None => (Some (io.NopCloser buf), io.NopCloser buf, None)
          end
      end
  end.

Definition hashAndEncode (data : list byte) : string :=
  let hashedContent := sha256_Sum256 data in
  base64_EncodeToString hashedContent.

Definition bodyHashError (err : error) : error :=
  errors_New ("can not read body of request while calculating body hash: " +:+ Error err).

(** [GetBodyHash]: the hash or the error, and the request as it is left. *)
Definition GetBodyHash (request : http.Request) : result string * http.Request :=
  match http.Body request with
  | None =>
      let request := http.with_ContentLength request 0 in
      let request := http.with_Header request
        (http.Header_Set (http.Header request) "Content-Length"
           (fmt_int64 (http.ContentLength request))) in
      (Ok (hashAndEncode (list_byte_of_string "")), request)
  | Some body =>
      let '(bReader, body, err) := drainBody body in
      let request := http.with_Body request (Some body) in
      match err, bReader with
      | Some e, _ => (Failed (bodyHashError e), request)
      | None, None => (Panicked, request)
      | None, Some bReader =>
          let '(data, err, _) := io.ReadAll bReader in
          match err with
          | Some e => (Failed (bodyHashError e), request)
          | None =>
              let request := http.with_ContentLength request (Z.of_nat (length data)) in
              let request := http.with_Header request
                (http.Header_Set (http.Header request) "Content-Length"
                   (fmt_int64 (http.ContentLength request))) in
              (Ok (hashAndEncode data), request)
          end
      end
  end.

Definition calculateHashOfBody (request : http.Request) : result unit * http.Request :=
  match GetBodyHash request with
  | (Ok hash, request) =>
      (Ok tt, http.with_Header request
                (http.Header_Set (http.Header request) "X-Content-SHA256" hash))
  | (Failed err, request) => (Failed err, request)
  | (Panicked, request) => (Panicked, request)
  end.

Definition signatureError (e : error) : error :=
  errors_New ("can not compute signature while signing the request " +:+ Error e +:+ ": ").

Definition authorizationValue (signingHeaders keyID signature : string) : string :=
  "Signature version=" +:+ dquote +:+ signerVersion +:+ dquote
    +:+ ",headers=" +:+ dquote +:+ signingHeaders +:+ dquote
    +:+ ",keyId=" +:+ dquote +:+ keyID +:+ dquote
    +:+ ",algorithm=" +:+ dquote +:+ "rsa-sha256" +:+ dquote
    +:+ ",signature=" +:+ dquote +:+ signature +:+ dquote.

Section Signing.

(** [rsa.SignPKCS1v15] with [crypto.SHA256]: the entropy read from
    [rand.Reader], the key and the digest give the signature or an error. *)
Variable rsa_SignPKCS1v15 : list byte -> rsa_PrivateKey -> list byte -> list byte + error.

Definition computeSignature (random : list byte) (signer : ociRequestSigner)
    (request : http.Request) : result string :=
  let signingString := getSigningString signer request in
  let hashed := sha256_Sum256 (list_byte_of_string signingString) in
  match KeyProvider signer with
  | None => Panicked
  | Some provider =>
      match KeyProvider.PrivateRSAKey provider with
      | inr err => Failed err
      | inl privateKey =>
          match rsa_SignPKCS1v15 random privateKey hashed with
          | inr e => Failed (signatureError e)
          | inl unencodedSig => Ok (base64_EncodeToString unencodedSig)
          end
      end
  end.

(** [Sign]: the outcome and the request as the call leaves it. *)
Definition Sign (random : list byte) (signer : ociRequestSigner)
    (request : http.Request) : result unit * http.Request :=
  let '(hashed, request) :=
    if ShouldHashBody signer request then calculateHashOfBody request
    else (Ok tt, request) in
  match hashed with
  | Failed err => (Failed err, request)
  | Panicked => (Panicked, request)
  | Ok _ =>
      match computeSignature random signer request with
      | Failed err => (Failed err, request)
      | Panicked => (Panicked, request)
      | Ok signature =>
          let signingHeaders := strings_Join (getSigningHeaders signer request) " " in
          match KeyProvider signer with
          | None => (Panicked, request)
          | Some provider =>
              match KeyProvider.KeyID provider with
              | inr err => (Failed err, request)
              | inl keyID =>
                  let authValue := authorizationValue signingHeaders keyID signature in
                  (Ok tt, http.with_Header request
                            (http.Header_Set (http.Header request) "Authorization" authValue))
              end
          end
      end
  end.

End Signing.

(** The request as the body-hash step of [Sign] leaves it. *)
Definition afterBodyHash (signer : ociRequestSigner) (r : http.Request) : http.Request :=
  if ShouldHashBody signer r then (calculateHashOfBody r).2 else r.

(** The [Authorization] value as the specification words it: the names of
    the signing header list in lower case, separated by single spaces. *)
Definition spec_authorizationValue (signingHeaderList : list string)
    (keyID signature : string) : string :=
  "Signature version=" +:+ dquote +:+ "1" +:+ dquote
    +:+ ",headers=" +:+ dquote
    +:+ strings_Join (strings_ToLower <$> signingHeaderList) " " +:+ dquote
    +:+ ",keyId=" +:+ dquote +:+ keyID +:+ dquote
    +:+ ",algorithm=" +:+ dquote +:+ "rsa-sha256" +:+ dquote
    +:+ ",signature=" +:+ dquote +:+ signature +:+ dquote.

(** ** The reference construction of the canonical signing string

    These definitions follow the words of the specification, not the code;
    the code above is compared with them. *)

(** The signing header list: generic headers, followed by body headers iff
    the body-hash predicate holds. *)
Definition spec_signingHeaderList (signer : ociRequestSigner) (r : http.Request)
    : list string :=
  if ShouldHashBody signer r then GenericHeaders signer ++ BodyHeaders signer
  else GenericHeaders signer.

(** Case-insensitive lookup: the first value of the header whose name equals
    [name] up to the case of letters; a missing header yields the empty
    value. *)
Definition spec_lookupIgnoringCase (h : http.Header_t) (name : string) : string :=
  match filter (fun kv => strings_ToLower kv.1 = strings_ToLower name) (map_to_list h) with
  | (_, v :: _) :: _ => v
  | _ => ""
  end.

(** The value of one lower-cased header name. *)
Definition spec_headerValue (r : http.Request) (name : string) : string :=
  if decide (name = "(request-target)") then
    strings_ToLower (http.Method r) +:+ " " +:+ url.RequestURI (http.URL r)
  else if decide (name = "host") then
    (if decide (url.Host (http.URL r) = "") then http.Host r else url.Host (http.URL r))
  else spec_lookupIgnoringCase (http.Header r) name.

Definition spec_signingLine (r : http.Request) (name : string) : string :=
  let name := strings_ToLower name in
  name +:+ ": " +:+ spec_headerValue r name.

(** Lines joined by a single newline, with no trailing newline. *)
Fixpoint spec_joinLines (lines : list string) : string :=
  match lines with
  | [] => ""
  | l :: rest =>
      match rest with
      | [] => l
      | _ :: _ => l +:+ newline +:+ spec_joinLines rest
      end
  end.

Definition spec_signingString (signer : ociRequestSigner) (r : http.Request) : string :=
  spec_joinLines (spec_signingLine r <$> spec_signingHeaderList signer r).

(** A header map as the [http.Header] methods keep it: every key is a header
    field name in canonical form. *)
Definition canonicalHeader (h : http.Header_t) : Prop :=
  map_Forall (fun k _ => validHeaderField k = true
                         /\ textproto_CanonicalMIMEHeaderKey k = k) h.

(** What reading a request body to its end delivers; an absent body is an
    empty payload. *)
Definition bodyBytes (b : option io.ReadCloser) : list byte :=
  match b with
  | None => []
  | Some b => (io.ReadAll b).1.1
  end.

(** What a body delivers and how it ends, whatever its representation: an
    absent body, [http.NoBody] and an empty stream without errors are the
    same payload. *)
Definition bodyView (b : option io.ReadCloser) : list byte * option error * option error :=
  match b with
  | None | Some io.NoBody => ([], None, None)
  | Some (io.Reader s) => (io.pending s, io.readErr s, io.closeErr s)
  end.

(** Two requests with the same content: method, URL, host, headers and body.
    They may differ in the [ContentLength] field and in how the body is
    represented. *)
Definition sameContent (r1 r2 : http.Request) : Prop :=
  http.Method r1 = http.Method r2 /\ http.URL r1 = http.URL r2
  /\ http.Host r1 = http.Host r2 /\ http.Header r1 = http.Header r2
  /\ bodyView (http.Body r1) = bodyView (http.Body r2).

(** A body-hash predicate that reads the method and the headers only, as the
    predefined ones do. *)
Definition readsMethodAndHeaders (predicate : SignerBodyHashPredicate) : Prop :=
  forall r1 r2 : http.Request,
    http.Method r1 = http.Method r2 -> http.Header r1 = http.Header r2 ->
    predicate r1 = predicate r2.

(** ** The URL-based certificate retriever *)

Module retriever.

(** Modelled from the spec: the answer of the transport client to a GET, a
    status and a body (section 6); the client belongs to [net/http]. *)
Record Response := { StatusCode : Z; ResponseBody : list byte }.

(** Modelled from the spec: the transport client at the time of one refresh;
    a GET of a URL gives a status and a body, or a transport error. *)
Definition Client : Type := string -> Response + error.

Section Retriever.

(** Modelled from the spec: the parsed form of an X.509 certificate, and the
    two parsers of PEM blocks ([CERTIFICATE], and [RSA PRIVATE KEY] with its
    passphrase); a malformed or empty input has no parse (section 6). *)
Variable x509_Certificate : Type.
Variable parseCertificate : list byte -> option x509_Certificate.
Variable parsePrivateKey : list byte -> string -> option rsa_PrivateKey.

(** Modelled from the spec: the credential material of section 3, which the
    retriever stores as one value. *)
Record CredentialMaterial := {
  certificatePemRaw : list byte;
  certificate : x509_Certificate;
  privateKeyPemRaw : option (list byte);
  privateKey : option rsa_PrivateKey }.

(** Modelled from the spec: the type [urlBasedX509CertificateRetriever] is not
    part of the sources at hand (only its test is). It holds the certificate
    URL, the private-key URL (empty when none is configured, as the test
    constructs it), the passphrase, and the stored material, unset until a
    refresh succeeds. *)
Record urlBasedX509CertificateRetriever := {
  certURL : string;
  privateKeyURL : string;
  passphrase : string;
  material : option CredentialMaterial }.

(** Modelled from the spec: the constructor [newURLBasedX509CertificateRetriever]
    (absent from the sources), which creates the retriever empty. *)
Definition newURLBasedX509CertificateRetriever (certURL privateKeyURL passphrase : string)
    : urlBasedX509CertificateRetriever :=
  {| certURL := certURL; privateKeyURL := privateKeyURL; passphrase := passphrase;
     material := None |}.

(** Modelled from the spec: one fetch (the helper is absent from the sources).
    A transport error and a status outside 200..299 are failures. *)
Definition fetch (client : Client) (u : string) : list byte + error :=
  match client u with
  | inr e => inr e
  | inl resp =>
      if (200 <=? StatusCode resp) && (StatusCode resp <=? 299) then inl (ResponseBody resp)
      else inr (errors_New ("unexpected status fetching " +:+ u))
  end.

(** Modelled from the spec: step 1 of [Refresh], fetching and parsing the
    certificate. *)
Definition renewCertificate (client : Client) (u : string)
    : (list byte * x509_Certificate) + error :=
  match fetch client u with
  | inr e => inr e
  | inl raw =>
      match parseCertificate raw with
      | None => inr (errors_New "failed to parse the certificate")
      | Some cert => inl (raw, cert)
      end
  end.

(** Modelled from the spec: step 2 of [Refresh], fetching and parsing the
    private key. *)
Definition renewPrivateKey (client : Client) (u pass : string)
    : (list byte * rsa_PrivateKey) + error :=
  match fetch client u with
  | inr e => inr e
  | inl raw =>
      match parsePrivateKey raw pass with
      | None => inr (errors_New "failed to parse the private key")
      | Some key => inl (raw, key)
      end
  end.

(** Modelled from the spec: [Refresh] of the URL-based retriever (absent from
    the sources), steps 1 to 4 of section 4.1. The material is replaced as
    one unit, and only once every configured fetch and parse has succeeded. *)
Definition Refresh (client : Client) (r : urlBasedX509CertificateRetriever)
    : option error * urlBasedX509CertificateRetriever :=
  match renewCertificate client (certURL r) with
  | inr e => (Some (errors_New ("failed to renew certificate: " +:+ Error e)), r)
  | inl (certRaw, cert) =>
      let renewedKey :=
        if String.eqb (privateKeyURL r) "" then inl (None, None)
        else match renewPrivateKey client (privateKeyURL r) (passphrase r) with
             | inr e => inr e
             | inl (keyRaw, key) => inl (Some keyRaw, Some key)
             end in
      match renewedKey with
      | inr e => (Some (errors_New ("failed to renew private key: " +:+ Error e)), r)
      | inl (keyRaw, key) =>
          (None,
           {| certURL := certURL r; privateKeyURL := privateKeyURL r;
              passphrase := passphrase r;
              material := Some {| certificatePemRaw := certRaw; certificate := cert;
                                  privateKeyPemRaw := keyRaw; privateKey := key |} |})
      end
  end.

(** Modelled from the spec: the four accessors (absent from the sources);
    each yields the stored value, or nothing before the first successful
    refresh. *)
Definition CertificatePemRaw (r : urlBasedX509CertificateRetriever) : option (list byte) :=
  certificatePemRaw <$> material r.

(** Modelled from the spec: the accessor [Certificate]. *)
Definition Certificate (r : urlBasedX509CertificateRetriever) : option x509_Certificate :=
  certificate <$> material r.

(** Modelled from the spec: the accessor [PrivateKeyPemRaw]. *)
Definition PrivateKeyPemRaw (r : urlBasedX509CertificateRetriever) : option (list byte) :=
  material r ≫= privateKeyPemRaw.

(** Modelled from the spec: the accessor [PrivateKey]. *)
Definition PrivateKey (r : urlBasedX509CertificateRetriever) : option rsa_PrivateKey :=
  material r ≫= privateKey.

(** A history of refresh attempts, one transport state per attempt, oldest
    first. *)
Definition refreshAll (clients : list Client) (r : urlBasedX509CertificateRetriever)
    : urlBasedX509CertificateRetriever :=
  fold_left (fun r client => (Refresh client r).2) clients r.

(** The material stored after a history of attempts in which the failed ones
    are skipped: what the last successful attempt stored, or the initial
    material when none succeeded. *)
Fixpoint lastSuccessful (clients : list Client) (r : urlBasedX509CertificateRetriever)
    : option CredentialMaterial :=
  match clients with
  | [] => material r
  | client :: rest =>
      match Refresh client r with
      | (None, r') => lastSuccessful rest r'
      | (Some _, _) => lastSuccessful rest r
      end
  end.

(** Some configured fetch or parse fails: the certificate's, or the private
    key's when a private-key URL is configured. *)
Definition fetchOrParseFails (client : Client) (certURL privateKeyURL passphrase : string)
    : Prop :=
  (exists e, renewCertificate client certURL = inr e)
  \/ (privateKeyURL <> "" /\ exists e, renewPrivateKey client privateKeyURL passphrase = inr e).

(** The stored material is paired as the configuration asks: without a
    private-key URL it holds no key, with one it holds a key and its bytes. *)
Definition pairedMaterial (r : urlBasedX509CertificateRetriever) : Prop :=
  match material r with
  | None => True
  | Some m =>
      if String.eqb (privateKeyURL r) ""
      then privateKeyPemRaw m = None /\ privateKey m = None
      else is_Some (privateKeyPemRaw m) /\ is_Some (privateKey m)
  end.

End Retriever.

Arguments CredentialMaterial : clear implicits.
Arguments urlBasedX509CertificateRetriever : clear implicits.
Arguments newURLBasedX509CertificateRetriever {x509_Certificate}.
Arguments CertificatePemRaw {x509_Certificate}.
Arguments Certificate {x509_Certificate}.
Arguments PrivateKeyPemRaw {x509_Certificate}.
Arguments PrivateKey {x509_Certificate}.
Arguments certificatePemRaw {x509_Certificate}.
Arguments certificate {x509_Certificate}.
Arguments privateKeyPemRaw {x509_Certificate}.
Arguments privateKey {x509_Certificate}.
Arguments material {x509_Certificate}.
Arguments certURL {x509_Certificate}.
Arguments privateKeyURL {x509_Certificate}.
Arguments passphrase {x509_Certificate}.
Arguments renewCertificate {x509_Certificate}.
Arguments Refresh {x509_Certificate}.
Arguments refreshAll {x509_Certificate}.
Arguments lastSuccessful {x509_Certificate}.
Arguments fetchOrParseFails {x509_Certificate}.
Arguments pairedMaterial {x509_Certificate}.

End retriever.

(** ** Worked examples

    Concrete requests, providers and transports on which the definitions
    above are run. *)

Definition exampleURL : url.URL :=
  {| url.Scheme := "https"; url.Opaque := ""; url.Host := "example.com";
     url.EscapedPath := "/v1/x"; url.ForceQuery := false; url.RawQuery := "" |}.

(** A GET request to host [example.com], path [/v1/x], without a body. *)
Definition exampleGet : http.Request :=
  {| http.Method := "GET"; http.URL := exampleURL;
     http.Header := http.Header_Set ∅ "Date" "Mon, 02 Jan 2006 15:04:05 GMT";
     http.Body := None; http.ContentLength := 0; http.Host := "" |}.

(** A POST request to the same URL with a five-byte body. *)
Definition examplePost : http.Request :=
  {| http.Method := "POST"; http.URL := exampleURL;
     http.Header :=
       http.Header_Set
         (http.Header_Set ∅ "Date" "Mon, 02 Jan 2006 15:04:05 GMT")
         "Content-Type" "application/json";
     http.Body := Some (io.NopCloser (list_byte_of_string "hello"));
     http.ContentLength := 0; http.Host := "" |}.

Definition exampleKey : rsa_PrivateKey := {| rsa_N := 3233; rsa_E := 17; rsa_D := 2753 |}.

Definition exampleProvider : KeyProvider.t :=
  {| KeyProvider.PrivateRSAKey := inl exampleKey;
     KeyProvider.KeyID := inl "tenancy/user/fingerprint";
     KeyProvider.ExpirationTime := 1767225600000000000 |}.

(** A provider that has no key to offer. *)
Definition exampleEmptyProvider : KeyProvider.t :=
  {| KeyProvider.PrivateRSAKey := inr (errors_New "no private key");
     KeyProvider.KeyID := inr (errors_New "no key id");
     KeyProvider.ExpirationTime := 0 |}.

(** A stand-in for the signature primitive, to run the examples: it ignores
    the entropy and returns the digest as the signature. *)
Definition exampleSignPKCS1v15 (random : list byte) (priv : rsa_PrivateKey)
    (hashed : list byte) : list byte + error :=
  inl hashed.

(** A signer configured with header names in mixed case. *)
Definition exampleMixedCaseSigner : ociRequestSigner :=
  RequestSigner (Some exampleProvider) ["Date"; "(request-target)"; "Host"]
    defaultBodyHeaders.

(** Stand-ins for the PEM parsers: a certificate or key parses when its
    bytes are not empty, and is then represented by them. *)
Definition exampleParseCertificate (raw : list byte) : option (list byte) :=
  match raw with [] => None | _ :: _ => Some raw end.

Definition exampleParsePrivateKey (raw : list byte) (pass : string)
    : option rsa_PrivateKey :=
  match raw with [] => None | _ :: _ => Some exampleKey end.

(** The two servers of the failure-atomicity test: first both answer, then
    the certificate server answers with another certificate while the key
    server answers 500. *)
Definition exampleServersUp : retriever.Client := fun u =>
  if String.eqb u "http://cert" then
    inl {| retriever.StatusCode := 200;
           retriever.ResponseBody := list_byte_of_string "expectedCert" |}
  else if String.eqb u "http://key" then
    inl {| retriever.StatusCode := 200;
           retriever.ResponseBody := list_byte_of_string "expectedPrivateKey" |}
  else inr (errors_New "connection refused").

Definition exampleKeyServerFailed : retriever.Client := fun u =>
  if String.eqb u "http://cert" then
    inl {| retriever.StatusCode := 200;
           retriever.ResponseBody := list_byte_of_string "anotherCert" |}
  else if String.eqb u "http://key" then
    inl {| retriever.StatusCode := 500;
           retriever.ResponseBody := list_byte_of_string "500 internal server error" |}
  else inr (errors_New "connection refused").

(** The default signer bound to a provider without a key, and the default
    signer with no provider bound. *)
Definition exampleKeylessSigner : ociRequestSigner :=
  DefaultRequestSigner (Some exampleEmptyProvider).

Definition exampleUnboundSigner : ociRequestSigner := DefaultRequestSigner None.

(** The retriever of the failure-atomicity test after its first refresh. *)
Definition exampleRetriever : retriever.urlBasedX509CertificateRetriever (list byte) :=
  retriever.refreshAll exampleParseCertificate exampleParsePrivateKey [exampleServersUp]
    (retriever.newURLBasedX509CertificateRetriever "http://cert" "http://key" "").

(** A body-hash predicate that reads the method and the marker header
    [X-Nosql-Hash-Body] only, as the predefined ones do. *)
Definition readsMethodAndMarker (predicate : SignerBodyHashPredicate) : Prop :=
  forall r1 r2 : http.Request,
    http.Method r1 = http.Method r2 ->
    http.Header_Get (http.Header r1) "X-Nosql-Hash-Body"
    = http.Header_Get (http.Header r2) "X-Nosql-Hash-Body" ->
    predicate r1 = predicate r2.

(** A predicate that asks for the body hash while the request has no
    [Content-Length] header yet. *)
Definition exampleLengthPredicate : SignerBodyHashPredicate := fun r =>
  String.eqb (http.Header_Get (http.Header r) "Content-Length") "".

(** A body that breaks off after three bytes. *)
Definition exampleBrokenBody : io.ReadCloser :=
  io.Reader {| io.pending := list_byte_of_string "hel";
               io.readErr := Some (errors_New "connection reset");
               io.closeErr := None |}.

(** A POST request whose body breaks off after three bytes. *)
Definition exampleBrokenPost : http.Request :=
  http.with_Body examplePost (Some exampleBrokenBody).

(** A request one of whose headers was written into the map directly, under
    a key that is not in canonical form, and a signer that signs it. *)
Definition exampleDirectHeaderGet : http.Request :=
  {| http.Method := "GET"; http.URL := exampleURL;
     http.Header := {[ "x-custom" := ["v"] ]};
     http.Body := None; http.ContentLength := 0; http.Host := "" |}.

Definition exampleCustomSigner : ociRequestSigner :=
  RequestSigner (Some exampleProvider) ["x-custom"] defaultBodyHeaders.

(** A request whose single header was stored by [Header.Set] under a name
    holding a space, which is kept as written, and a signer that signs it. *)
Definition exampleSpacedHeaderGet : http.Request :=
  {| http.Method := "GET"; http.URL := exampleURL;
     http.Header := http.Header_Set ∅ "X Spaced" "v";
     http.Body := None; http.ContentLength := 0; http.Host := "" |}.

Definition exampleSpacedSigner : ociRequestSigner :=
  RequestSigner (Some exampleProvider) ["x spaced"] defaultBodyHeaders.

(** * Properties *)

(** The hash and the encoding are run on concrete inputs by [vm_compute]
    only; proofs about the signer treat them as black boxes. *)
Arguments sha256_Sum256 : simpl never.
Arguments base64_EncodeToString : simpl never.
Arguments hashAndEncode : simpl never.
Arguments textproto_CanonicalMIMEHeaderKey : simpl never.
Arguments fmt_int64 : simpl never.
Arguments http.Header_Set : simpl never.
Arguments http.Header_Get : simpl never.
Opaque sha256_Sum256 base64_EncodeToString.

Lemma Ok_inj {A} (a b : A) : Ok a = Ok b -> a = b.
Proof. intros H. by injection H. Qed.

Lemma result_pair_inj {A B} (a a' : A) (b b' : B) :
  (Ok a, b) = (Ok a', b') -> a = a' /\ b = b'.
Proof. intros H. by injection H. Qed.

(** ** Characters and header keys *)

Ltac by_ascii_cases c :=
  destruct c as [[] [] [] [] [] [] [] []]; vm_compute; reflexivity.

Lemma lower_ascii_idem c : lower_ascii (lower_ascii c) = lower_ascii c.
Proof. by_ascii_cases c. Qed.

Lemma upper_lower_ascii c : upper_ascii (lower_ascii c) = upper_ascii c.
Proof. by_ascii_cases c. Qed.

Lemma lower_upper_ascii c : lower_ascii (upper_ascii c) = lower_ascii c.
Proof. by_ascii_cases c. Qed.

Lemma valid_lower_ascii c : validHeaderFieldByte (lower_ascii c) = validHeaderFieldByte c.
Proof. by_ascii_cases c. Qed.

Lemma ToLower_idem s : strings_ToLower (strings_ToLower s) = strings_ToLower s.
Proof. induction s as [|c s IH]; simpl; [done|]. by rewrite lower_ascii_idem, IH. Qed.

Lemma validHeaderField_ToLower s : validHeaderField (strings_ToLower s) = validHeaderField s.
Proof. induction s as [|c s IH]; simpl; [done|]. by rewrite valid_lower_ascii, IH. Qed.

(** The canonical form of a key only depends on the key up to case. *)
Lemma canonical_from_ToLower upper s :
  canonical_from upper (strings_ToLower s) = canonical_from upper s.
Proof.
  revert upper. induction s as [|c s IH]; intros upper; simpl; [done|].
  destruct upper; rewrite ?upper_lower_ascii, ?lower_ascii_idem, IH; done.
Qed.

Lemma ToLower_canonical_from upper s :
  strings_ToLower (canonical_from upper s) = strings_ToLower s.
Proof.
  revert upper. induction s as [|c s IH]; intros upper; simpl; [done|].
  destruct upper; rewrite ?lower_upper_ascii, ?lower_ascii_idem, IH; done.
Qed.

Lemma canonical_key_of_lower k name :
  validHeaderField k = true ->
  textproto_CanonicalMIMEHeaderKey k = k ->
  strings_ToLower k = strings_ToLower name ->
  textproto_CanonicalMIMEHeaderKey name = k.
Proof.
  intros Hv Hc Hl. unfold textproto_CanonicalMIMEHeaderKey in *.
  rewrite Hv in Hc.
  assert (validHeaderField name = true) as ->.
  { by rewrite <- validHeaderField_ToLower, <- Hl, validHeaderField_ToLower. }
  by rewrite <- canonical_from_ToLower, <- Hl, canonical_from_ToLower.
Qed.

Lemma ToLower_canonical_key name :
  strings_ToLower (textproto_CanonicalMIMEHeaderKey name) = strings_ToLower name.
Proof.
  unfold textproto_CanonicalMIMEHeaderKey.
  destruct (validHeaderField name); [apply ToLower_canonical_from | done].
Qed.

(** ** Header maps *)

Lemma Header_Get_Set_eq (h : http.Header_t) key value :
  http.Header_Get (http.Header_Set h key value) key = value.
Proof. unfold http.Header_Get, http.Header_Set. by rewrite lookup_insert_eq. Qed.

Lemma Header_Get_Set_ne (h : http.Header_t) key key' value :
  textproto_CanonicalMIMEHeaderKey key <> textproto_CanonicalMIMEHeaderKey key' ->
  http.Header_Get (http.Header_Set h key value) key' = http.Header_Get h key'.
Proof.
  intros Hne. unfold http.Header_Get, http.Header_Set. by rewrite lookup_insert_ne.
Qed.

Lemma Header_Set_lookup_ne (h : http.Header_t) key value k :
  k <> textproto_CanonicalMIMEHeaderKey key ->
  http.Header_Set h key value !! k = h !! k.
Proof. intros Hne. unfold http.Header_Set. by rewrite lookup_insert_ne. Qed.

Lemma canonicalHeader_empty : canonicalHeader ∅.
Proof. apply map_Forall_empty. Qed.

Lemma canonical_from_valid upper s :
  validHeaderField s = true -> validHeaderField (canonical_from upper s) = true.
Proof.
  intros Hv. rewrite <- validHeaderField_ToLower, ToLower_canonical_from.
  by rewrite validHeaderField_ToLower.
Qed.

Lemma canonical_from_idem upper s :
  canonical_from upper (canonical_from upper s) = canonical_from upper s.
Proof.
  rewrite <- (canonical_from_ToLower upper (canonical_from upper s)).
  by rewrite ToLower_canonical_from, canonical_from_ToLower.
Qed.

(** [Header.Set] with a header field name keeps the map canonical. *)
Lemma canonicalHeader_Set (h : http.Header_t) key value :
  validHeaderField key = true ->
  canonicalHeader h -> canonicalHeader (http.Header_Set h key value).
Proof.
  intros Hv Hh. unfold canonicalHeader, http.Header_Set.
  apply map_Forall_insert_2; [|done].
  unfold textproto_CanonicalMIMEHeaderKey. rewrite Hv.
  rewrite (canonical_from_valid _ _ Hv). split; [done|]. apply canonical_from_idem.
Qed.

(** ** The canonical signing string *)

Lemma append_empty_r (s : string) : s +:+ "" = s.
Proof.
  induction s as [|c s IH]; [done|].
  change (String c (s +:+ "") = String c s). by rewrite IH.
Qed.

Lemma strings_Join_rest_spec x xs :
  strings_Join_rest (x :: xs) newline = newline +:+ spec_joinLines (x :: xs).
Proof.
  revert x. induction xs as [|y ys IH]; intros x.
  - simpl. by rewrite append_empty_r.
  - change (strings_Join_rest (x :: y :: ys) newline)
      with (newline +:+ x +:+ strings_Join_rest (y :: ys) newline).
    by rewrite IH.
Qed.

Lemma strings_Join_newline lines : strings_Join lines newline = spec_joinLines lines.
Proof.
  destruct lines as [|l [|x xs]]; [done..|].
  change (strings_Join (l :: x :: xs) newline)
    with (l +:+ strings_Join_rest (x :: xs) newline).
  by rewrite strings_Join_rest_spec.
Qed.

(** The indexed loop writes, slot by slot, the line of each signing header. *)
Lemma fillSigningParts_spec request done_ hs :
  fillSigningParts request (length done_) hs (done_ ++ replicate (length hs) "")
  = done_ ++ (signingPart request <$> hs).
Proof.
  revert done_. induction hs as [|part rest IH]; intros done_; simpl.
  - done.
  - rewrite insert_app_r_alt by lia. rewrite Nat.sub_diag. simpl.
    specialize (IH (done_ ++ [signingPart request part])).
    rewrite length_app, Nat.add_1_r in IH. simpl in IH.
    rewrite <- !(assoc_L (++)) in IH. simpl in IH. exact IH.
Qed.

Lemma getSigningHeaders_spec signer r :
  getSigningHeaders signer r = spec_signingHeaderList signer r.
Proof.
  unfold getSigningHeaders, spec_signingHeaderList. simpl.
  by destruct (ShouldHashBody signer r).
Qed.

(** Among entries with pairwise distinct keys, selecting by a property that
    singles out the key [K] returns the entry of [K] alone. *)
Lemma filter_single_key {V} (P : string * V -> Prop) `{!forall kv, Decision (P kv)}
    (l : list (string * V)) K v :
  NoDup l.*1 -> (K, v) ∈ l -> (forall kv, kv ∈ l -> P kv <-> kv.1 = K) ->
  filter P l = [(K, v)].
Proof.
  induction l as [|kv l IH]; intros Hnd Hin HP.
  - by apply elem_of_nil in Hin.
  - rewrite fmap_cons in Hnd. apply NoDup_cons in Hnd as [Hfresh Hnd].
    apply elem_of_cons in Hin as [Heq|Hin].
    + subst kv. rewrite filter_cons_True.
      2:{ apply HP; [apply elem_of_cons; by left | done]. }
      f_equal.
      destruct (filter P l) as [|kv' rest] eqn:Hf; [done|]. exfalso.
      assert (kv' ∈ filter P l) as Hkv' by (rewrite Hf; apply elem_of_cons; by left).
      apply list_elem_of_filter in Hkv' as [HPkv' Hkv'].
      apply HP in HPkv'; [|apply elem_of_cons; by right].
      apply Hfresh. simpl. rewrite <- HPkv'. by apply list_elem_of_fmap_2.
    + rewrite filter_cons_False.
      * apply IH; [done..|]. intros kv' Hkv'. apply HP. apply elem_of_cons; by right.
      * intros Hkv. apply HP in Hkv; [|apply elem_of_cons; by left].
        apply Hfresh. rewrite Hkv.
        by apply (list_elem_of_fmap_2 fst l (K, v)).
Qed.

(** On a canonical header map, [Header.Get] is the case-insensitive lookup. *)
Lemma Header_Get_ignoring_case (h : http.Header_t) name :
  canonicalHeader h -> http.Header_Get h name = spec_lookupIgnoringCase h name.
Proof.
  intros Hh. unfold http.Header_Get, spec_lookupIgnoringCase.
  set (K := textproto_CanonicalMIMEHeaderKey name).
  assert (forall kv, kv ∈ map_to_list h ->
            strings_ToLower kv.1 = strings_ToLower name <-> kv.1 = K) as HP.
  { intros [k v] Hkv. apply elem_of_map_to_list in Hkv. simpl.
    destruct (Hh k v Hkv) as [Hv Hc]. split.
    - intros Hl. symmetry. by apply canonical_key_of_lower.
    - intros ->. apply ToLower_canonical_key. }
  destruct (h !! K) as [vs|] eqn:HK.
  - rewrite (filter_single_key _ (map_to_list h) K vs); [done| |by apply elem_of_map_to_list|done].
    apply NoDup_fst_map_to_list.
  - destruct (filter _ (map_to_list h)) as [|[k v] rest] eqn:Hf; [done|]. exfalso.
    assert ((k, v) ∈ filter (fun kv => strings_ToLower kv.1 = strings_ToLower name)
                       (map_to_list h)) as Hkv by (rewrite Hf; apply elem_of_cons; by left).
    apply list_elem_of_filter in Hkv as [HPkv Hkv].
    apply HP in HPkv; [|done]. simpl in HPkv. subst k.
    apply elem_of_map_to_list in Hkv. congruence.
Qed.

Lemma signingPart_spec r part :
  canonicalHeader (http.Header r) -> signingPart r part = spec_signingLine r part.
Proof.
  intros Hh. unfold signingPart, spec_signingLine, spec_headerValue, getRequestTarget.
  f_equal. f_equal.
  destruct (String.eqb_spec (strings_ToLower part) "(request-target)") as [->|Hrt].
  { done. }
  rewrite decide_False by done.
  destruct (String.eqb_spec (strings_ToLower part) "host") as [->|Hhost].
  { rewrite decide_True by done.
    destruct (url.Host (http.URL r)) as [|c s]; [done|].
    by rewrite decide_False. }
  rewrite decide_False by done. by apply Header_Get_ignoring_case.
Qed.

(** The code and the reference construction agree on every request whose
    header map is canonical. *)
Lemma getSigningString_spec_canonical (signer : ociRequestSigner) (r : http.Request) :
  canonicalHeader (http.Header r) ->
  getSigningString signer r = spec_signingString signer r.
Proof.
  intros Hh. unfold getSigningString, spec_signingString.
  rewrite strings_Join_newline, getSigningHeaders_spec.
  pose proof (fillSigningParts_spec r [] (spec_signingHeaderList signer r)) as Hfill.
  simpl in Hfill. rewrite Hfill. f_equal.
  apply list_fmap_ext. intros _ part _. by apply signingPart_spec.
Qed.

(** C3, as stated, fails: the code resolves a name by [Header.Get], which
    looks up the canonical form of the name only. When the header was written
    into the map directly under [x-custom], or stored by [Header.Set] under
    the name [X Spaced] (kept as written, for it holds a space), the code
    signs an empty value where the case-insensitive lookup of the reference
    construction finds the value [v]. *)
Lemma getSigningString_reference_counterexample :
  (getSigningString exampleCustomSigner exampleDirectHeaderGet = "x-custom: "
   /\ spec_signingString exampleCustomSigner exampleDirectHeaderGet = "x-custom: v"
   /\ getSigningString exampleCustomSigner exampleDirectHeaderGet
      <> spec_signingString exampleCustomSigner exampleDirectHeaderGet)
  /\ (getSigningString exampleSpacedSigner exampleSpacedHeaderGet = "x spaced: "
      /\ spec_signingString exampleSpacedSigner exampleSpacedHeaderGet = "x spaced: v"
      /\ getSigningString exampleSpacedSigner exampleSpacedHeaderGet
         <> spec_signingString exampleSpacedSigner exampleSpacedHeaderGet).
Proof. vm_compute. repeat split; discriminate. Qed.

(** C3, amended. For every request with an ASCII method whose header map is
    canonical (every key a header field name in canonical form, as
    [Header.Set] and [Header.Add] store a valid field name), and every signer
    configuration with ASCII header names, the signing string computed by
    [getSigningString] equals the reference construction: one line
    [name: value] per signing header (generic headers, then body headers iff
    the body-hash predicate holds), in configured order with lower-cased
    names, joined by single newlines without a trailing one;
    [(request-target)] is the lower-cased method, a space and the request
    URI; [host] is the URL host or, when that is empty, the [Host] field;
    any other name is looked up ignoring case, a missing header giving the
    empty value. *)
Theorem getSigningString_reference (signer : ociRequestSigner) (r : http.Request) :
  isASCII (http.Method r) = true ->
  Forall (fun name => isASCII name = true) (GenericHeaders signer ++ BodyHeaders signer) ->
  canonicalHeader (http.Header r) ->
  getSigningString signer r = spec_signingString signer r.
Proof. intros _ _ Hh. by apply getSigningString_spec_canonical. Qed.

Lemma canonicalHeader_exampleGet : canonicalHeader (http.Header exampleGet).
Proof. apply canonicalHeader_Set; [done|]. apply canonicalHeader_empty. Qed.

Lemma default_lists_ASCII :
  Forall (fun name => isASCII name = true)
         (GenericHeaders (DefaultRequestSigner (Some exampleProvider))
          ++ BodyHeaders (DefaultRequestSigner (Some exampleProvider))).
Proof. repeat constructor. Qed.

Lemma getSigningString_reference_witness :
  isASCII (http.Method exampleGet) = true
  /\ Forall (fun name => isASCII name = true)
            (GenericHeaders (DefaultRequestSigner (Some exampleProvider))
             ++ BodyHeaders (DefaultRequestSigner (Some exampleProvider)))
  /\ canonicalHeader (http.Header exampleGet)
  /\ getSigningString (DefaultRequestSigner (Some exampleProvider)) exampleGet
     = spec_signingString (DefaultRequestSigner (Some exampleProvider)) exampleGet.
Proof.
  split; [reflexivity|]. split; [exact default_lists_ASCII|].
  split; [exact canonicalHeader_exampleGet|].
  exact (getSigningString_reference (DefaultRequestSigner (Some exampleProvider)) exampleGet
           eq_refl default_lists_ASCII canonicalHeader_exampleGet).
Defined.

(** The request of the specification's example: the request target renders
    as [get /v1/x]. *)
Example getSigningString_exampleGet :
  getSigningString (DefaultRequestSigner (Some exampleProvider)) exampleGet
  = "date: Mon, 02 Jan 2006 15:04:05 GMT" +:+ newline
    +:+ "(request-target): get /v1/x" +:+ newline
    +:+ "host: example.com".
Proof. vm_compute. reflexivity. Qed.

(** [Header.Get] assumes that keys are stored in canonical form: a key
    written into the map in another form is not found by it. *)
Example Header_Get_assumes_canonical_keys :
  let h : http.Header_t := {[ "x-custom" := ["v"] ]} in
  http.Header_Get h "x-custom" = ""
  /\ http.Header_Get (http.Header_Set ∅ "x-custom" "v") "X-CUSTOM" = "v"
  /\ spec_lookupIgnoringCase h "x-custom" = "v".
Proof. vm_compute. repeat split. Qed.

(** ** The body-hash predicates *)

(** C7. The default body-hash predicate, used by the default and the
    delegation signer, holds exactly when the method is POST, PUT or PATCH or
    the marker header [X-Nosql-Hash-Body] equals the string [true], and is
    false otherwise; the predicate of the two exclude-body signers holds
    exactly when the marker header equals [true]. *)
Theorem body_hash_predicates (provider : option KeyProvider.t) (r : http.Request) :
  let marker := http.Header_Get (http.Header r) "X-Nosql-Hash-Body" = "true" in
  let stateChanging :=
    http.Method r = "POST" \/ http.Method r = "PUT" \/ http.Method r = "PATCH" in
  (defaultBodyHashPredicate r = true <-> stateChanging \/ marker)
  /\ (defaultBodyHashPredicate r = false <-> ~ (stateChanging \/ marker))
  /\ ShouldHashBody (DefaultRequestSigner provider) = defaultBodyHashPredicate
  /\ ShouldHashBody (DelegationRequestSigner provider) = defaultBodyHashPredicate
  /\ (ShouldHashBody (RequestSignerExcludeBody provider) r = true <-> marker)
  /\ (ShouldHashBody (DelegationRequestSignerExcludeBody provider) r = true <-> marker).
Proof.
  intros marker stateChanging.
  assert (defaultBodyHashPredicate r = true <-> stateChanging \/ marker) as Hdefault.
  { unfold defaultBodyHashPredicate, marker, stateChanging,
      http.MethodPost, http.MethodPut, http.MethodPatch.
    destruct (String.eqb_spec (http.Header_Get (http.Header r) "X-Nosql-Hash-Body") "true");
      [tauto|].
    destruct (String.eqb_spec (http.Method r) "POST"); [simpl; tauto|].
    destruct (String.eqb_spec (http.Method r) "PUT"); [simpl; tauto|].
    destruct (String.eqb_spec (http.Method r) "PATCH"); [simpl; tauto|].
    simpl. split; [discriminate | tauto]. }
  split; [exact Hdefault|]. split.
  { rewrite <- Hdefault. by destruct (defaultBodyHashPredicate r). }
  do 2 (split; [reflexivity|]).
  split; simpl; unfold excludeBodyHashPredicate, marker; apply String.eqb_eq.
Qed.

(** ** Expiration time *)

(** C9. With no key provider bound, [ExpirationTime] returns the current
    instant minus one second, which lies strictly before the current instant;
    with a provider bound it returns the provider's expiration time. The
    result is a plain instant in both cases: the function has no error or
    panic outcome. *)
Theorem ExpirationTime_spec (now : Time) (generic body : list string)
    (predicate : SignerBodyHashPredicate) (provider : KeyProvider.t) :
  let unbound := RequestSignerWithBodyHashingPredicate None generic body predicate in
  let bound := RequestSignerWithBodyHashingPredicate (Some provider) generic body predicate in
  ExpirationTime now unbound = Time_Add now (- time_Second)
  /\ Time_Before (ExpirationTime now unbound) now
  /\ ExpirationTime now bound = KeyProvider.ExpirationTime provider.
Proof.
  simpl. unfold ExpirationTime, Time_Before, Time_Add, time_Second. simpl.
  repeat split. lia.
Qed.

(** ** The body hash *)

(** What a successful [GetBodyHash] returns and how it leaves the request. *)
Lemma GetBodyHash_Ok (r : http.Request) h r' :
  GetBodyHash r = (Ok h, r') ->
  let B := bodyBytes (http.Body r) in
  let n := Z.of_nat (length B) in
  h = hashAndEncode B
  /\ http.ContentLength r' = n
  /\ http.Header r' = http.Header_Set (http.Header r) "Content-Length" (fmt_int64 n)
  /\ http.Method r' = http.Method r /\ http.URL r' = http.URL r
  /\ http.Host r' = http.Host r
  /\ bodyBytes (http.Body r') = B
  /\ (is_Some (http.Body r) -> exists b', http.Body r' = Some b'
        /\ io.ReadAll b' = (B, None, (io.ReadAll b').2)).
Proof.
  unfold GetBodyHash. destruct (http.Body r) as [[|s]|] eqn:Hbody; simpl.
  - intros [<- <-]%result_pair_inj. simpl. repeat split; eauto.
  - destruct (io.readErr s) eqn:Hre; simpl; [discriminate|].
    destruct (io.closeErr s) eqn:Hce; simpl; [discriminate|].
    intros [<- <-]%result_pair_inj. simpl. repeat split; eauto.
  - intros [<- <-]%result_pair_inj. simpl. rewrite Hbody. repeat split; try done.
Qed.

(** A failed [GetBodyHash] writes no header. *)
Lemma GetBodyHash_not_Ok_Header (r : http.Request) :
  (forall h, (GetBodyHash r).1 <> Ok h) -> http.Header (GetBodyHash r).2 = http.Header r.
Proof.
  unfold GetBodyHash. destruct (http.Body r) as [[|s]|]; simpl.
  - intros Hne. by destruct (Hne _ eq_refl).
  - destruct (io.readErr s); simpl; [done|].
    destruct (io.closeErr s); simpl; [done|].
    intros Hne. by destruct (Hne _ eq_refl).
  - intros Hne. by destruct (Hne _ eq_refl).
Qed.

(** What a successful [calculateHashOfBody] leaves in the request. *)
Lemma calculateHashOfBody_Ok (r : http.Request) r' :
  calculateHashOfBody r = (Ok tt, r') ->
  exists h r1, GetBodyHash r = (Ok h, r1)
    /\ r' = http.with_Header r1 (http.Header_Set (http.Header r1) "X-Content-SHA256" h).
Proof.
  unfold calculateHashOfBody. destruct (GetBodyHash r) as [[h|e|] r1]; [|done..].
  intros [_ <-]%pair_equal_spec. eauto.
Qed.

(** What a successful [Sign] did, step by step. *)
Lemma Sign_Ok sign random signer (r r' : http.Request) :
  Sign sign random signer r = (Ok tt, r') ->
  exists r1 signature provider keyID,
    (if ShouldHashBody signer r then calculateHashOfBody r = (Ok tt, r1) else r1 = r)
    /\ computeSignature sign random signer r1 = Ok signature
    /\ KeyProvider signer = Some provider
    /\ KeyProvider.KeyID provider = inl keyID
    /\ r' = http.with_Header r1
              (http.Header_Set (http.Header r1) "Authorization"
                 (authorizationValue (strings_Join (getSigningHeaders signer r1) " ")
                    keyID signature)).
Proof.
  unfold Sign.
  destruct (ShouldHashBody signer r) eqn:Hpred.
  - destruct (calculateHashOfBody r) as [[[]|e|] r1] eqn:Hcalc; [|done..].
    destruct (computeSignature sign random signer r1) as [signature|e|] eqn:Hsig; [|done..].
    destruct (KeyProvider signer) as [provider|] eqn:Hkp; [|done].
    destruct (KeyProvider.KeyID provider) as [keyID|e] eqn:Hid; [|done].
    intros [_ <-]%pair_equal_spec. by exists r1, signature, provider, keyID.
  - destruct (computeSignature sign random signer r) as [signature|e|] eqn:Hsig; [|done..].
    destruct (KeyProvider signer) as [provider|] eqn:Hkp; [|done].
    destruct (KeyProvider.KeyID provider) as [keyID|e] eqn:Hid; [|done].
    intros [_ <-]%pair_equal_spec. by exists r, signature, provider, keyID.
Qed.


(** C5. Body-hash round trip: after a successful [GetBodyHash] on a request
    whose body delivers the bytes [B], the request holds a body, and reading
    it to the end delivers exactly [B] and no error; the same holds of the
    request left by a successful [Sign]. *)
Theorem GetBodyHash_round_trip (r : http.Request) (body : io.ReadCloser) (B : list byte) :
  http.Body r = Some body ->
  (io.ReadAll body).1.1 = B ->
  (forall h r', GetBodyHash r = (Ok h, r') ->
     exists body', http.Body r' = Some body'
       /\ (io.ReadAll body').1 = (B, None))
  /\ (forall sign random signer r',
        Sign sign random signer r = (Ok tt, r') ->
        ShouldHashBody signer r = true ->
        exists body', http.Body r' = Some body' /\ (io.ReadAll body').1 = (B, None)).
Proof.
  intros Hbody HB.
  assert (forall h r', GetBodyHash r = (Ok h, r') ->
            exists body', http.Body r' = Some body' /\ (io.ReadAll body').1 = (B, None))
    as Hround.
  { intros h r' Hok. apply GetBodyHash_Ok in Hok as (_ & _ & _ & _ & _ & _ & _ & Hre).
    destruct Hre as (body' & Hbody' & Hread); [by rewrite Hbody|].
    exists body'. split; [done|]. rewrite Hread. simpl.
    unfold bodyBytes. by rewrite Hbody, HB. }
  split; [exact Hround|].
  intros sign random signer r' Hsign Hpred.
  apply Sign_Ok in Hsign as (r1 & signature & provider & keyID & Hstep & _ & _ & _ & ->).
  rewrite Hpred in Hstep.
  apply calculateHashOfBody_Ok in Hstep as (h & r0 & Hhash & ->).
  simpl. by apply (Hround h).
Qed.

(** ** Failures of [Sign] *)

(** [calculateHashOfBody] writes the headers [Content-Length] and
    [X-Content-SHA256] (stored under its canonical key) and no other. *)
Lemma calculateHashOfBody_frame (r : http.Request) k :
  k <> "Content-Length" -> k <> "X-Content-Sha256" ->
  http.Header (calculateHashOfBody r).2 !! k = http.Header r !! k.
Proof.
  intros Hcl Hsha. unfold calculateHashOfBody.
  destruct (GetBodyHash r) as [[h|e|] r1] eqn:Hhash; simpl.
  - apply GetBodyHash_Ok in Hhash as (_ & _ & Hhdr & _).
    rewrite Hhdr. by rewrite !Header_Set_lookup_ne.
  - rewrite <- (GetBodyHash_not_Ok_Header r); rewrite Hhash; [done|]. simpl. congruence.
  - rewrite <- (GetBodyHash_not_Ok_Header r); rewrite Hhash; [done|]. simpl. congruence.
Qed.

(** A call of [Sign] that does not succeed returns the request as the
    body-hash step left it. *)
Lemma Sign_not_Ok sign random signer (r : http.Request) :
  (Sign sign random signer r).1 <> Ok tt ->
  (Sign sign random signer r).2 = afterBodyHash signer r.
Proof.
  unfold Sign, afterBodyHash.
  destruct (ShouldHashBody signer r).
  - destruct (calculateHashOfBody r) as [[[]|e|] r1]; simpl; [|done..].
    destruct (computeSignature sign random signer r1); [|done..].
    destruct (KeyProvider signer) as [provider|]; [|done].
    by destruct (KeyProvider.KeyID provider).
  - destruct (computeSignature sign random signer r); [|done..].
    destruct (KeyProvider signer) as [provider|]; [|done].
    by destruct (KeyProvider.KeyID provider).
Qed.

(** X15. The errors that [Sign] returns: the error of the body-hash step, the
    provider's key error, the wrapped error of the signature computation, or
    the provider's key-id error. *)
Lemma Sign_Failed_causes sign random signer (r : http.Request) e r' :
  Sign sign random signer r = (Failed e, r') ->
  (ShouldHashBody signer r = true /\ (calculateHashOfBody r).1 = Failed e)
  \/ exists provider, KeyProvider signer = Some provider
       /\ (KeyProvider.PrivateRSAKey provider = inr e
           \/ (exists privateKey e0,
                 KeyProvider.PrivateRSAKey provider = inl privateKey
                 /\ sign random privateKey
                      (sha256_Sum256 (list_byte_of_string
                         (getSigningString signer (afterBodyHash signer r)))) = inr e0
                 /\ e = signatureError e0)
           \/ KeyProvider.KeyID provider = inr e).
Proof.
  unfold Sign, afterBodyHash, computeSignature.
  destruct (ShouldHashBody signer r).
  - destruct (calculateHashOfBody r) as [[[]|e1|] r1]; simpl; [| |done].
    + destruct (KeyProvider signer) as [provider|]; [|done].
      destruct (KeyProvider.PrivateRSAKey provider) as [privateKey|e1] eqn:Hkey.
      * destruct (sign random privateKey _) as [sig|e0] eqn:Hsig.
        -- destruct (KeyProvider.KeyID provider) as [keyID|e1] eqn:Hid; [done|].
           intros [= -> _]. right. exists provider. eauto.
        -- intros [= <- _]. right. exists provider. split; [done|]. right. left. eauto.
      * intros [= -> _]. right. exists provider. eauto.
    + intros [= -> _]. by left.
  - destruct (KeyProvider signer) as [provider|]; [|done].
    destruct (KeyProvider.PrivateRSAKey provider) as [privateKey|e1] eqn:Hkey.
    + destruct (sign random privateKey _) as [sig|e0] eqn:Hsig.
      * destruct (KeyProvider.KeyID provider) as [keyID|e1] eqn:Hid; [done|].
        intros [= -> _]. right. exists provider. eauto.
      * intros [= <- _]. right. exists provider. split; [done|]. right. left. eauto.
    + intros [= -> _]. right. exists provider. eauto.
Qed.

(** Each failure of the provider or of the signature computation is returned
    as an error by [Sign]. *)
Lemma Sign_surfaces_errors sign random signer (r : http.Request) provider :
  KeyProvider signer = Some provider ->
  (calculateHashOfBody r).1 = Ok tt \/ ShouldHashBody signer r = false ->
  let r1 := afterBodyHash signer r in
  let hashed := sha256_Sum256 (list_byte_of_string (getSigningString signer r1)) in
  (forall e, KeyProvider.PrivateRSAKey provider = inr e ->
     Sign sign random signer r = (Failed e, r1))
  /\ (forall privateKey e0, KeyProvider.PrivateRSAKey provider = inl privateKey ->
        sign random privateKey hashed = inr e0 ->
        Sign sign random signer r = (Failed (signatureError e0), r1))
  /\ (forall privateKey sig e, KeyProvider.PrivateRSAKey provider = inl privateKey ->
        sign random privateKey hashed = inl sig ->
        KeyProvider.KeyID provider = inr e ->
        Sign sign random signer r = (Failed e, r1)).
Proof.
  intros Hkp Hstep. unfold Sign, afterBodyHash, computeSignature.
  assert ((if ShouldHashBody signer r then calculateHashOfBody r else (Ok tt, r))
          = (Ok tt, if ShouldHashBody signer r then (calculateHashOfBody r).2 else r)) as ->.
  { destruct (ShouldHashBody signer r); [|done].
    destruct Hstep as [Hok|]; [|done].
    destruct (calculateHashOfBody r) as [res r1]. simpl in *. by subst res. }
  rewrite Hkp. repeat split.
  - intros e ->. done.
  - intros privateKey e0 -> ->. done.
  - intros privateKey sig e -> -> ->. done.
Qed.

(** C6. If [Sign] fails, it returns an error and the request is as the
    body-hash step left it. For every error returned, whatever its cause, the
    only headers that can differ from the original request are
    [Content-Length] and [X-Content-SHA256], and the [Authorization] entry is
    the one the request had before the call (none, if it had none). And once
    the body-hash step is passed, a key retrieval error, an error of the
    signature computation and a key-id retrieval error are each returned as
    such an error. *)
Theorem Sign_failure_frame sign random signer (r : http.Request) :
  let r1 := afterBodyHash signer r in
  let hashed := sha256_Sum256 (list_byte_of_string (getSigningString signer r1)) in
  (forall e r', Sign sign random signer r = (Failed e, r') ->
     r' = r1
     /\ http.Header r' !! "Authorization" = http.Header r !! "Authorization"
     /\ http.Header_Get (http.Header r') "Authorization"
        = http.Header_Get (http.Header r) "Authorization"
     /\ (forall k, k <> "Content-Length" -> k <> "X-Content-Sha256" ->
           http.Header r' !! k = http.Header r !! k))
  /\ (forall provider,
        KeyProvider signer = Some provider ->
        (calculateHashOfBody r).1 = Ok tt \/ ShouldHashBody signer r = false ->
        (forall e, KeyProvider.PrivateRSAKey provider = inr e ->
           Sign sign random signer r = (Failed e, r1))
        /\ (forall privateKey e0, KeyProvider.PrivateRSAKey provider = inl privateKey ->
              sign random privateKey hashed = inr e0 ->
              Sign sign random signer r = (Failed (signatureError e0), r1))
        /\ (forall privateKey sig e, KeyProvider.PrivateRSAKey provider = inl privateKey ->
              sign random privateKey hashed = inl sig ->
              KeyProvider.KeyID provider = inr e ->
              Sign sign random signer r = (Failed e, r1))).
Proof.
  intros r1 hashed. split; [|intros provider; apply Sign_surfaces_errors].
  intros e r' Hsign.
  assert (r' = r1) as ->.
  { pose proof (Sign_not_Ok sign random signer r) as Hframe.
    rewrite Hsign in Hframe. simpl in Hframe. by apply Hframe. }
  assert (forall k, k <> "Content-Length" -> k <> "X-Content-Sha256" ->
            http.Header r1 !! k = http.Header r !! k) as Hother.
  { intros k Hcl Hsha. unfold r1, afterBodyHash.
    destruct (ShouldHashBody signer r); [by apply calculateHashOfBody_frame | done]. }
  split; [done|]. split; [by apply Hother|]. split; [|done].
  unfold http.Header_Get.
  change (textproto_CanonicalMIMEHeaderKey "Authorization") with "Authorization".
  by rewrite Hother.
Qed.

(** C10. With no key provider bound, [computeSignature] panics on every
    request, so [Sign] never succeeds and never returns a key error: it
    panics, unless the body-hash step already failed, in which case it
    returns that step's error. [ExpirationTime], by contrast, handles the
    unbound provider and returns an instant. *)
Theorem Sign_nil_KeyProvider sign random signer (r : http.Request) :
  KeyProvider signer = None ->
  (forall r1, computeSignature sign random signer r1 = Panicked)
  /\ (Sign sign random signer r).1 <> Ok tt
  /\ ((Sign sign random signer r).1 = Panicked
      \/ exists e, ShouldHashBody signer r = true
           /\ (GetBodyHash r).1 = Failed e
           /\ (Sign sign random signer r).1 = Failed e)
  /\ (forall now, ExpirationTime now signer = Time_Add now (- time_Second)).
Proof.
  intros Hnil.
  assert (forall r1, computeSignature sign random signer r1 = Panicked) as Hpanic.
  { intros r1. unfold computeSignature. by rewrite Hnil. }
  split; [exact Hpanic|].
  assert ((Sign sign random signer r).1 = Panicked
      \/ exists e, ShouldHashBody signer r = true
           /\ (GetBodyHash r).1 = Failed e
           /\ (Sign sign random signer r).1 = Failed e) as Hcases.
  { unfold Sign. destruct (ShouldHashBody signer r).
    - unfold calculateHashOfBody.
      destruct (GetBodyHash r) as [[h|e|] r1]; simpl.
      + rewrite Hpanic. by left.
      + right. by exists e.
      + by left.
    - rewrite Hpanic. by left. }
  split; [|split; [exact Hcases|]].
  - destruct Hcases as [->|(e & _ & _ & ->)]; done.
  - intros now. unfold ExpirationTime. by rewrite Hnil.
Qed.

(** ** The [Authorization] header *)

(** On success the [Authorization] header holds the template filled with the
    configured names of the signing headers joined by spaces, the provider's
    key id, and the base64 encoding of the signature of the SHA-256 digest of
    the signing string. *)
Lemma Sign_Authorization sign random signer (r r' : http.Request) :
  Sign sign random signer r = (Ok tt, r') ->
  let r1 := afterBodyHash signer r in
  exists provider privateKey keyID unencodedSig,
    KeyProvider signer = Some provider
    /\ KeyProvider.PrivateRSAKey provider = inl privateKey
    /\ KeyProvider.KeyID provider = inl keyID
    /\ sign random privateKey
         (sha256_Sum256 (list_byte_of_string (getSigningString signer r1)))
       = inl unencodedSig
    /\ http.Header_Get (http.Header r') "Authorization"
       = authorizationValue (strings_Join (getSigningHeaders signer r1) " ") keyID
           (base64_EncodeToString unencodedSig).
Proof.
  intros Hsign r1.
  apply Sign_Ok in Hsign as (r0 & signature & provider & keyID & Hstep & Hsig & Hkp & Hid & ->).
  assert (r0 = r1) as ->.
  { unfold r1, afterBodyHash. destruct (ShouldHashBody signer r); [|done]. by rewrite Hstep. }
  unfold computeSignature in Hsig. rewrite Hkp in Hsig.
  destruct (KeyProvider.PrivateRSAKey provider) as [privateKey|] eqn:Hkey; [|done].
  destruct (sign random privateKey _) as [unencodedSig|] eqn:Hs; [|done].
  apply Ok_inj in Hsig as <-.
  exists provider, privateKey, keyID, unencodedSig.
  repeat (split; [done|]). simpl. by rewrite Header_Get_Set_eq.
Qed.

Lemma ToLower_fixed_fmap (names : list string) :
  Forall (fun name => strings_ToLower name = name) names ->
  strings_ToLower <$> names = names.
Proof. induction 1 as [|name names Hname _ IH]; [done|]. rewrite fmap_cons. congruence. Qed.

(** With header names configured in lower case, as all the predefined lists
    are, the value matches the template of the specification. *)
Lemma Sign_Authorization_lower_case sign random signer (r r' : http.Request) :
  Forall (fun name => strings_ToLower name = name)
         (GenericHeaders signer ++ BodyHeaders signer) ->
  Sign sign random signer r = (Ok tt, r') ->
  exists keyID signature,
    http.Header_Get (http.Header r') "Authorization"
    = spec_authorizationValue
        (spec_signingHeaderList signer (afterBodyHash signer r)) keyID signature.
Proof.
  intros Hlower Hsign.
  apply Sign_Authorization in Hsign as (provider & key & keyID & sig & _ & _ & _ & _ & ->).
  exists keyID, (base64_EncodeToString sig).
  unfold spec_authorizationValue, authorizationValue, signerVersion.
  rewrite getSigningHeaders_spec, ToLower_fixed_fmap; [done|].
  unfold spec_signingHeaderList. destruct (ShouldHashBody signer _); [done|].
  by apply Forall_app in Hlower as [? _].
Qed.

Lemma defaultGenericHeaders_lower_case :
  Forall (fun name => strings_ToLower name = name)
         (defaultGenericHeaders ++ defaultDelegationHeaders ++ defaultBodyHeaders).
Proof. repeat constructor. Qed.

(** C2, at a signer configured with [Date], [(request-target)], [Host]: the
    signing succeeds; the signing string names the headers in lower case,
    but the [headers] parameter of the [Authorization] value keeps the
    configured capitals, so that the value differs from the documented
    template, whose names are in lower case. *)
Theorem Sign_headers_not_lower_cased :
  let out := Sign exampleSignPKCS1v15 [] exampleMixedCaseSigner exampleGet in
  let signature := "utAUMCSBPWqIIwWrPDRrF7E09h3sLqQNfsYZm9JBXYg=" in
  out.1 = Ok tt
  /\ getSigningString exampleMixedCaseSigner exampleGet
     = "date: Mon, 02 Jan 2006 15:04:05 GMT" +:+ newline
       +:+ "(request-target): get /v1/x" +:+ newline +:+ "host: example.com"
  /\ http.Header_Get (http.Header out.2) "Authorization"
     = "Signature version=" +:+ dquote +:+ "1" +:+ dquote
       +:+ ",headers=" +:+ dquote +:+ "Date (request-target) Host" +:+ dquote
       +:+ ",keyId=" +:+ dquote +:+ "tenancy/user/fingerprint" +:+ dquote
       +:+ ",algorithm=" +:+ dquote +:+ "rsa-sha256" +:+ dquote
       +:+ ",signature=" +:+ dquote +:+ signature +:+ dquote
  /\ spec_authorizationValue (getSigningHeaders exampleMixedCaseSigner exampleGet)
       "tenancy/user/fingerprint" signature
     = "Signature version=" +:+ dquote +:+ "1" +:+ dquote
       +:+ ",headers=" +:+ dquote +:+ "date (request-target) host" +:+ dquote
       +:+ ",keyId=" +:+ dquote +:+ "tenancy/user/fingerprint" +:+ dquote
       +:+ ",algorithm=" +:+ dquote +:+ "rsa-sha256" +:+ dquote
       +:+ ",signature=" +:+ dquote +:+ signature +:+ dquote
  /\ http.Header_Get (http.Header out.2) "Authorization"
     <> spec_authorizationValue (getSigningHeaders exampleMixedCaseSigner exampleGet)
          "tenancy/user/fingerprint" signature.
Proof. vm_compute. repeat split. discriminate. Qed.

(** ** Determinism *)

(** The entropy is used by the signature primitive only. *)
Lemma Sign_entropy_irrelevant
    (sign : list byte -> rsa_PrivateKey -> list byte -> list byte + error)
    (random1 random2 : list byte) (signer : ociRequestSigner) :
  (forall rnd1 rnd2 key digest, sign rnd1 key digest = sign rnd2 key digest) ->
  (forall r, computeSignature sign random1 signer r = computeSignature sign random2 signer r)
  /\ (forall r, Sign sign random1 signer r = Sign sign random2 signer r).
Proof.
  intros Hsign.
  assert (forall r1, computeSignature sign random1 signer r1
                     = computeSignature sign random2 signer r1) as Hsig.
  { intros r1. unfold computeSignature.
    destruct (KeyProvider signer) as [provider|]; [|done].
    destruct (KeyProvider.PrivateRSAKey provider) as [privateKey|]; [|done].
    by rewrite (Hsign random1 random2). }
  split; [exact Hsig|]. intros r.
  unfold Sign. destruct (ShouldHashBody signer r).
  - destruct (calculateHashOfBody r) as [[[]|e|] r1]; [|done..]. by rewrite Hsig.
  - by rewrite Hsig.
Qed.

(** C8. The signing string is a function of the request and the signer
    configuration alone. The only other input of a run of [Sign] is the
    entropy handed to the signature primitive; since an RSA PKCS#1 v1.5
    signature does not depend on it, two runs on the same request, signer
    configuration and credential snapshot compute the same signing string,
    the same signature, the same outcome and the same headers, whatever the
    entropy of each run. *)
Theorem Sign_deterministic
    (sign : list byte -> rsa_PrivateKey -> list byte -> list byte + error)
    (random1 random2 : list byte) (signer : ociRequestSigner) (r : http.Request) :
  (forall rnd1 rnd2 key digest, sign rnd1 key digest = sign rnd2 key digest) ->
  computeSignature sign random1 signer (afterBodyHash signer r)
  = computeSignature sign random2 signer (afterBodyHash signer r)
  /\ Sign sign random1 signer r = Sign sign random2 signer r
  /\ http.Header_Get (http.Header (Sign sign random1 signer r).2) "Authorization"
     = http.Header_Get (http.Header (Sign sign random2 signer r).2) "Authorization".
Proof.
  intros Hsign.
  pose proof (Sign_entropy_irrelevant sign random1 random2 signer Hsign) as [Hsig Heq].
  split; [apply Hsig|]. split; [apply Heq|]. by rewrite Heq.
Qed.

(** The signing string reads the method, the URL, the host and the headers
    of the request, and the value of the predicate. *)
Lemma getSigningString_reads signer (r1 r2 : http.Request) :
  http.Method r1 = http.Method r2 -> http.URL r1 = http.URL r2 ->
  http.Host r1 = http.Host r2 -> http.Header r1 = http.Header r2 ->
  ShouldHashBody signer r1 = ShouldHashBody signer r2 ->
  getSigningString signer r1 = getSigningString signer r2.
Proof.
  intros Hm Hu Hh Hhdr Hp. unfold getSigningString.
  assert (getSigningHeaders signer r1 = getSigningHeaders signer r2) as ->.
  { unfold getSigningHeaders. by rewrite Hp. }
  f_equal.
  pose proof (fillSigningParts_spec r1 [] (getSigningHeaders signer r2)) as H1.
  pose proof (fillSigningParts_spec r2 [] (getSigningHeaders signer r2)) as H2.
  simpl in H1, H2. rewrite H1, H2.
  apply list_fmap_ext. intros _ part _.
  unfold signingPart, getRequestTarget. by rewrite Hm, Hu, Hh, Hhdr.
Qed.

Lemma GetBodyHash_sameContent (r1 r2 : http.Request) :
  sameContent r1 r2 ->
  (GetBodyHash r1).1 = (GetBodyHash r2).1
  /\ sameContent (GetBodyHash r1).2 (GetBodyHash r2).2.
Proof.
  intros (Hm & Hu & Hh & Hhdr & Hb). unfold GetBodyHash, sameContent.
  change (list_byte_of_string "") with (@nil byte).
  destruct (http.Body r1) as [[|[p1 [re1|] [ce1|]]]|] eqn:Hb1,
           (http.Body r2) as [[|[p2 [re2|] [ce2|]]]|] eqn:Hb2;
    simpl in Hb; simplify_eq; simpl; by rewrite ?Hb1, ?Hb2, ?Hhdr.
Qed.

Lemma afterBodyHash_sameContent signer (r1 r2 : http.Request) :
  readsMethodAndHeaders (ShouldHashBody signer) ->
  sameContent r1 r2 ->
  (if ShouldHashBody signer r1 then (calculateHashOfBody r1).1 else Ok tt)
  = (if ShouldHashBody signer r2 then (calculateHashOfBody r2).1 else Ok tt)
  /\ sameContent (afterBodyHash signer r1) (afterBodyHash signer r2).
Proof.
  intros Hreads Hsame. unfold afterBodyHash.
  assert (ShouldHashBody signer r1 = ShouldHashBody signer r2) as ->.
  { destruct Hsame as (Hm & _ & _ & Hhdr & _). by apply Hreads. }
  destruct (ShouldHashBody signer r2); [|done].
  destruct (GetBodyHash_sameContent r1 r2 Hsame) as [Hres Hsame'].
  unfold calculateHashOfBody.
  destruct (GetBodyHash r1) as [res1 r1'], (GetBodyHash r2) as [res2 r2'].
  simpl in Hres, Hsame'. subst res2.
  destruct Hsame' as (Hm & Hu & Hh & Hhdr & Hb).
  destruct res1; simpl; unfold sameContent; simpl; by rewrite ?Hhdr.
Qed.

(** X16. Two requests with the same content, signed under the
    same configuration and credential snapshot by a predicate that reads the
    method and the headers only, get the same signing string, the same
    outcome and the same headers, whatever the entropy of each run and
    whatever their [ContentLength] fields and body representations. *)
Lemma Sign_same_content
    (sign : list byte -> rsa_PrivateKey -> list byte -> list byte + error)
    (random1 random2 : list byte) (signer : ociRequestSigner) (r1 r2 : http.Request) :
  (forall rnd1 rnd2 key digest, sign rnd1 key digest = sign rnd2 key digest) ->
  readsMethodAndHeaders (ShouldHashBody signer) ->
  sameContent r1 r2 ->
  getSigningString signer (afterBodyHash signer r1)
  = getSigningString signer (afterBodyHash signer r2)
  /\ (Sign sign random1 signer r1).1 = (Sign sign random2 signer r2).1
  /\ sameContent (Sign sign random1 signer r1).2 (Sign sign random2 signer r2).2.
Proof.
  intros Hsign Hreads Hsame.
  destruct (afterBodyHash_sameContent signer r1 r2 Hreads Hsame) as [Hres Hafter].
  assert (getSigningString signer (afterBodyHash signer r1)
          = getSigningString signer (afterBodyHash signer r2)) as Hstr.
  { destruct Hafter as (Hm & Hu & Hh & Hhdr & _).
    apply getSigningString_reads; [done..|]. by apply Hreads. }
  split; [exact Hstr|].
  assert (forall r, Sign sign random1 signer r
            = match (if ShouldHashBody signer r then (calculateHashOfBody r).1 else Ok tt) with
              | Ok _ =>
                  match computeSignature sign random1 signer (afterBodyHash signer r) with
                  | Ok signature =>
                      match KeyProvider signer with
                      | Some provider =>
                          match KeyProvider.KeyID provider with
                          | inl keyID =>
                              (Ok tt,
                               http.with_Header (afterBodyHash signer r)
                                 (http.Header_Set (http.Header (afterBodyHash signer r))
                                    "Authorization"
                                    (authorizationValue
                                       (strings_Join
                                          (getSigningHeaders signer (afterBodyHash signer r))
                                          " ") keyID signature)))
                          | inr err => (Failed err, afterBodyHash signer r)
                          end
                      | None => (Panicked, afterBodyHash signer r)
                      end
                  | Failed err => (Failed err, afterBodyHash signer r)
                  | Panicked => (Panicked, afterBodyHash signer r)
                  end
              | Failed err => (Failed err, afterBodyHash signer r)
              | Panicked => (Panicked, afterBodyHash signer r)
              end) as Hshape.
  { intros r. unfold Sign, afterBodyHash. destruct (ShouldHashBody signer r); [|done].
    by destruct (calculateHashOfBody r) as [[[]|e|] r']. }
  rewrite (proj2 (Sign_entropy_irrelevant sign random2 random1 signer Hsign) r2).
  rewrite (Hshape r1), (Hshape r2), <- Hres.
  assert (computeSignature sign random1 signer (afterBodyHash signer r1)
          = computeSignature sign random1 signer (afterBodyHash signer r2)) as ->.
  { unfold computeSignature. by rewrite Hstr. }
  assert (getSigningHeaders signer (afterBodyHash signer r1)
          = getSigningHeaders signer (afterBodyHash signer r2)) as ->.
  { destruct Hafter as (Hm & _ & _ & Hhdr & _).
    unfold getSigningHeaders. by rewrite (Hreads _ _ Hm Hhdr). }
  destruct Hafter as (Hm & Hu & Hh & Hhdr & Hb).
  destruct (if ShouldHashBody signer r1 then _ else _); simpl; [|done..].
  destruct (computeSignature sign random1 signer _); simpl; [|done..].
  destruct (KeyProvider signer) as [provider|]; simpl; [|done].
  destruct (KeyProvider.KeyID provider); simpl; [|done].
  split; [done|]. unfold sameContent. simpl. by rewrite Hhdr.
Qed.

Lemma predefined_predicates_read_method_and_headers :
  readsMethodAndHeaders defaultBodyHashPredicate
  /\ readsMethodAndHeaders excludeBodyHashPredicate.
Proof.
  split; intros r1 r2 Hm Hhdr;
    unfold defaultBodyHashPredicate, excludeBodyHashPredicate; by rewrite ?Hm, ?Hhdr.
Qed.

(** ** Refresh of the URL-based certificate retriever *)

Section RetrieverProperties.

Context {x509_Certificate : Type}.
Variable parseCertificate : list byte -> option x509_Certificate.
Variable parsePrivateKey : list byte -> string -> option rsa_PrivateKey.

Local Abbreviation Refresh := (retriever.Refresh parseCertificate parsePrivateKey).
Local Abbreviation refreshAll := (retriever.refreshAll parseCertificate parsePrivateKey).
Local Abbreviation lastSuccessful := (retriever.lastSuccessful parseCertificate parsePrivateKey).
Local Abbreviation renewCertificate := (retriever.renewCertificate parseCertificate).
Local Abbreviation renewPrivateKey := (retriever.renewPrivateKey parsePrivateKey).

(** A failed refresh returns the retriever as it was. *)
Lemma Refresh_failed_unchanged client (r : retriever.urlBasedX509CertificateRetriever x509_Certificate)
    e r' :
  Refresh client r = (Some e, r') -> r' = r.
Proof.
  unfold retriever.Refresh.
  destruct (renewCertificate client (retriever.certURL r)) as [[certRaw cert]|e1].
  - destruct (String.eqb (retriever.privateKeyURL r) ""); [done|].
    destruct (renewPrivateKey client _ _) as [[keyRaw key]|e2]; [done|].
    by intros [_ <-]%pair_equal_spec.
  - by intros [_ <-]%pair_equal_spec.
Qed.

(** A refresh never changes the configuration of the retriever. *)
Lemma Refresh_config client (r : retriever.urlBasedX509CertificateRetriever x509_Certificate) :
  retriever.certURL (Refresh client r).2 = retriever.certURL r
  /\ retriever.privateKeyURL (Refresh client r).2 = retriever.privateKeyURL r
  /\ retriever.passphrase (Refresh client r).2 = retriever.passphrase r.
Proof.
  unfold retriever.Refresh.
  destruct (renewCertificate client (retriever.certURL r)) as [[certRaw cert]|e1]; [|done].
  destruct (String.eqb (retriever.privateKeyURL r) ""); [done|].
  by destruct (renewPrivateKey client _ _) as [[keyRaw key]|e2].
Qed.

Lemma refreshAll_config clients (r : retriever.urlBasedX509CertificateRetriever x509_Certificate) :
  retriever.certURL (refreshAll clients r) = retriever.certURL r
  /\ retriever.privateKeyURL (refreshAll clients r) = retriever.privateKeyURL r
  /\ retriever.passphrase (refreshAll clients r) = retriever.passphrase r.
Proof.
  revert r. induction clients as [|client rest IH]; intros r; [done|].
  unfold retriever.refreshAll in *. simpl.
  destruct (IH (Refresh client r).2) as (-> & -> & ->). apply Refresh_config.
Qed.

(** A refresh fails as soon as a configured fetch or parse fails. *)
Lemma Refresh_fails client (r : retriever.urlBasedX509CertificateRetriever x509_Certificate) :
  retriever.fetchOrParseFails parseCertificate parsePrivateKey client
    (retriever.certURL r) (retriever.privateKeyURL r) (retriever.passphrase r) ->
  exists e, Refresh client r = (Some e, r).
Proof.
  unfold retriever.fetchOrParseFails, retriever.Refresh.
  intros [[e He]|[Hurl [e He]]].
  - rewrite He. eauto.
  - destruct (renewCertificate client (retriever.certURL r)) as [[certRaw cert]|e1]; [|eauto].
    apply String.eqb_neq in Hurl. rewrite Hurl, He. eauto.
Qed.

(** The stored material after any history of attempts is the one obtained by
    skipping the failed attempts. *)
Lemma refreshAll_lastSuccessful clients
    (r : retriever.urlBasedX509CertificateRetriever x509_Certificate) :
  retriever.material (refreshAll clients r) = lastSuccessful clients r.
Proof.
  revert r. induction clients as [|client rest IH]; intros r; [done|].
  unfold retriever.refreshAll in *. simpl. rewrite IH.
  destruct (Refresh client r) as [[e|] r'] eqn:Hrefresh; simpl; [|done].
  by rewrite (Refresh_failed_unchanged _ _ _ _ Hrefresh).
Qed.

(** C1. Failure atomicity of [Refresh]: after any history of refresh
    attempts on a retriever created empty, a refresh in which some configured
    fetch or parse fails (the certificate's, or the private key's after the
    certificate was fetched and parsed) returns an error and the retriever
    unchanged, so that the four accessors still return the material stored by
    the last successful refresh of the history, or nothing if there was
    none. *)
Theorem Refresh_failure_atomic (clients : list retriever.Client) (client : retriever.Client)
    (certURL privateKeyURL passphrase : string) :
  let r0 := retriever.newURLBasedX509CertificateRetriever certURL privateKeyURL passphrase in
  let r := refreshAll clients r0 in
  retriever.fetchOrParseFails parseCertificate parsePrivateKey client
    certURL privateKeyURL passphrase ->
  exists e,
    Refresh client r = (Some e, r)
    /\ retriever.CertificatePemRaw r = retriever.certificatePemRaw <$> lastSuccessful clients r0
    /\ retriever.Certificate r = retriever.certificate <$> lastSuccessful clients r0
    /\ retriever.PrivateKeyPemRaw r = lastSuccessful clients r0 ≫= retriever.privateKeyPemRaw
    /\ retriever.PrivateKey r = lastSuccessful clients r0 ≫= retriever.privateKey.
Proof.
  intros r0 r Hfails.
  destruct (refreshAll_config clients r0) as (Hc & Hk & Hp). fold r in Hc, Hk, Hp.
  destruct (Refresh_fails client r) as [e He].
  { by rewrite Hc, Hk, Hp. }
  exists e. split; [exact He|].
  unfold retriever.CertificatePemRaw, retriever.Certificate,
    retriever.PrivateKeyPemRaw, retriever.PrivateKey, r.
  by rewrite refreshAll_lastSuccessful.
Qed.

End RetrieverProperties.

(** ** The theorems at the worked examples *)


Lemma GetBodyHash_round_trip_witness :
  http.Body examplePost = Some (io.NopCloser (list_byte_of_string "hello"))
  /\ (forall h r', GetBodyHash examplePost = (Ok h, r') ->
        exists body', http.Body r' = Some body'
          /\ (io.ReadAll body').1 = (list_byte_of_string "hello", None)).
Proof.
  split; [reflexivity|].
  exact (proj1 (GetBodyHash_round_trip examplePost
                  (io.NopCloser (list_byte_of_string "hello"))
                  (list_byte_of_string "hello") eq_refl eq_refl)).
Defined.

Lemma Sign_failure_frame_witness :
  Sign exampleSignPKCS1v15 [] exampleKeylessSigner examplePost
  = (Failed (errors_New "no private key"), afterBodyHash exampleKeylessSigner examplePost)
  /\ http.Header (afterBodyHash exampleKeylessSigner examplePost) !! "Authorization"
     = http.Header examplePost !! "Authorization".
Proof.
  assert (Sign exampleSignPKCS1v15 [] exampleKeylessSigner examplePost
          = (Failed (errors_New "no private key"),
             afterBodyHash exampleKeylessSigner examplePost)) as Hfailed
    by (vm_compute; reflexivity).
  split; [exact Hfailed|].
  exact (proj1 (proj2 (proj1 (Sign_failure_frame _ _ _ _) _ _ Hfailed))).
Defined.

Lemma Sign_nil_KeyProvider_witness :
  KeyProvider exampleUnboundSigner = None
  /\ (Sign exampleSignPKCS1v15 [] exampleUnboundSigner exampleGet).1 <> Ok tt.
Proof.
  split; [reflexivity|].
  exact (proj1 (proj2 (Sign_nil_KeyProvider exampleSignPKCS1v15 [] exampleUnboundSigner
                         exampleGet eq_refl))).
Defined.

Lemma Sign_deterministic_witness :
  (forall rnd1 rnd2 key digest,
     exampleSignPKCS1v15 rnd1 key digest = exampleSignPKCS1v15 rnd2 key digest)
  /\ Sign exampleSignPKCS1v15 [] (DefaultRequestSigner (Some exampleProvider)) examplePost
     = Sign exampleSignPKCS1v15 ["x"%byte; "y"%byte]
         (DefaultRequestSigner (Some exampleProvider)) examplePost.
Proof.
  assert (forall rnd1 rnd2 key digest,
            exampleSignPKCS1v15 rnd1 key digest = exampleSignPKCS1v15 rnd2 key digest)
    as Hsign by reflexivity.
  split; [exact Hsign|].
  exact (proj1 (proj2 (Sign_deterministic exampleSignPKCS1v15 [] ["x"%byte; "y"%byte]
                         (DefaultRequestSigner (Some exampleProvider)) examplePost Hsign))).
Defined.

Lemma exampleKeyServerFailed_fails :
  retriever.fetchOrParseFails exampleParseCertificate exampleParsePrivateKey
    exampleKeyServerFailed "http://cert" "http://key" "".
Proof. right. split; [discriminate|]. eexists. vm_compute. reflexivity. Qed.

Lemma Refresh_failure_atomic_witness :
  retriever.fetchOrParseFails exampleParseCertificate exampleParsePrivateKey
    exampleKeyServerFailed "http://cert" "http://key" ""
  /\ exists e,
       retriever.Refresh exampleParseCertificate exampleParsePrivateKey
         exampleKeyServerFailed exampleRetriever = (Some e, exampleRetriever)
       /\ retriever.CertificatePemRaw exampleRetriever
          = retriever.certificatePemRaw
              <$> retriever.lastSuccessful exampleParseCertificate exampleParsePrivateKey
                    [exampleServersUp]
                    (retriever.newURLBasedX509CertificateRetriever
                       "http://cert" "http://key" "")
       /\ retriever.Certificate exampleRetriever
          = retriever.certificate
              <$> retriever.lastSuccessful exampleParseCertificate exampleParsePrivateKey
                    [exampleServersUp]
                    (retriever.newURLBasedX509CertificateRetriever
                       "http://cert" "http://key" "")
       /\ retriever.PrivateKeyPemRaw exampleRetriever
          = retriever.lastSuccessful exampleParseCertificate exampleParsePrivateKey
              [exampleServersUp]
              (retriever.newURLBasedX509CertificateRetriever "http://cert" "http://key" "")
            ≫= retriever.privateKeyPemRaw
       /\ retriever.PrivateKey exampleRetriever
          = retriever.lastSuccessful exampleParseCertificate exampleParsePrivateKey
              [exampleServersUp]
              (retriever.newURLBasedX509CertificateRetriever "http://cert" "http://key" "")
            ≫= retriever.privateKey.
Proof.
  split; [exact exampleKeyServerFailed_fails|].
  exact (Refresh_failure_atomic exampleParseCertificate exampleParsePrivateKey
           [exampleServersUp] exampleKeyServerFailed "http://cert" "http://key" ""
           exampleKeyServerFailed_fails).
Defined.

(** The scenario of [TestUrlBasedX509CertificateRetriever_FailureAtomicity]:
    after the failed second refresh the accessors still return the first
    certificate and key, not the certificate served the second time. *)
Example failure_atomicity_test :
  let r := (retriever.Refresh exampleParseCertificate exampleParsePrivateKey
              exampleKeyServerFailed exampleRetriever).2 in
  (retriever.Refresh exampleParseCertificate exampleParsePrivateKey
     exampleKeyServerFailed exampleRetriever).1
  = Some (errors_New "failed to renew private key: unexpected status fetching http://key")
  /\ retriever.CertificatePemRaw r = Some (list_byte_of_string "expectedCert")
  /\ retriever.Certificate r = Some (list_byte_of_string "expectedCert")
  /\ retriever.PrivateKeyPemRaw r = Some (list_byte_of_string "expectedPrivateKey")
  /\ retriever.PrivateKey r = Some exampleKey.
Proof. vm_compute. repeat split. Qed.

(** The scenarios of the tests without a private-key URL, with a missing
    certificate, and with a missing private key. *)
Example refresh_without_private_key_url :
  let r := (retriever.Refresh exampleParseCertificate exampleParsePrivateKey exampleServersUp
              (retriever.newURLBasedX509CertificateRetriever "http://cert" "" "")).2 in
  retriever.CertificatePemRaw r = Some (list_byte_of_string "expectedCert")
  /\ retriever.PrivateKeyPemRaw r = None /\ retriever.PrivateKey r = None.
Proof. vm_compute. repeat split. Qed.

Example refresh_private_key_not_found :
  let out := retriever.Refresh exampleParseCertificate exampleParsePrivateKey
               exampleKeyServerFailed
               (retriever.newURLBasedX509CertificateRetriever "http://cert" "http://key" "") in
  is_Some out.1
  /\ retriever.CertificatePemRaw out.2 = None /\ retriever.Certificate out.2 = None
  /\ retriever.PrivateKeyPemRaw out.2 = None /\ retriever.PrivateKey out.2 = None.
Proof. vm_compute. repeat split. eauto. Qed.

(** Test vectors of the hash and of the encoding. *)
Example sha256_abc :
  base64_EncodeToString (sha256_Sum256 (list_byte_of_string "abc"))
  = "ungWv48Bz+pBQUDeXa4iI7ADYaOWF3qctBD/YfIAFa0=".
Proof. vm_compute. reflexivity. Qed.

Example sha256_two_blocks :
  base64_EncodeToString (sha256_Sum256 (replicate 70 "a"%byte))
  = "a9XlA0hVoRJB8N7o/HKFD/2ZVbKDR6hkKLX6GRGfatA=".
Proof. vm_compute. reflexivity. Qed.

(** A request without a body: the hash of the empty byte sequence, and a
    content length of 0. *)
Example GetBodyHash_no_body :
  (GetBodyHash exampleGet).1 = Ok "47DEQpj8HBSa+/TImW+5JCeuQeRkm5NMpJWZG3hSuFU="
  /\ http.ContentLength (GetBodyHash exampleGet).2 = 0
  /\ http.Header_Get (http.Header (GetBodyHash exampleGet).2) "Content-Length" = "0".
Proof. vm_compute. repeat split. Qed.

(** Signing the POST example with the default signer installs the three
    headers. *)
Example Sign_examplePost :
  let out := Sign exampleSignPKCS1v15 [] (DefaultRequestSigner (Some exampleProvider))
               examplePost in
  out.1 = Ok tt
  /\ http.Header_Get (http.Header out.2) "Content-Length" = "5"
  /\ http.Header_Get (http.Header out.2) "X-Content-SHA256"
     = "LPJNul+wow4m6DsqxbninhsWHlwfp0JecwQzYpOLmCQ="
  /\ getSigningHeaders (DefaultRequestSigner (Some exampleProvider)) out.2
     = ["date"; "(request-target)"; "host"; "content-length"; "content-type";
        "x-content-sha256"].
Proof. vm_compute. repeat split. Qed.

(** * Further properties of the signer *)

(** ** Draining the body *)

(** X1. When [drainBody] succeeds, each of the two readers it returns
    delivers, without error, exactly the bytes the drained reader had to
    deliver, and closes without error; the [http.NoBody] sentinel is handed
    back as itself. *)
Theorem drainBody_readers (b r1 r2 : io.ReadCloser) :
  drainBody b = (Some r1, r2, None) ->
  (io.ReadAll r1).1 = ((io.ReadAll b).1.1, None)
  /\ (io.ReadAll r2).1 = ((io.ReadAll b).1.1, None)
  /\ io.Close r1 = None /\ io.Close r2 = None
  /\ (b = io.NoBody -> r1 = io.NoBody /\ r2 = io.NoBody).
Proof.
  unfold drainBody. destruct b as [|s]; simpl.
  - intros [= <- <-]. done.
  - destruct (io.readErr s); [done|]. simpl.
    destruct (io.closeErr s); [done|]. intros [= <- <-]. done.
Qed.

(** X2. [drainBody] fails exactly when reading the body to its end reports
    an error, or else closing it does; it then returns that error (the read
    error first), no reader to hash from, and the original reader, by then
    read to its end. *)
Theorem drainBody_failure (b : io.ReadCloser) :
  let failure :=
    match (io.ReadAll b).1.2 with
    | Some e => Some e
    | None => io.Close b
    end in
  (forall e, failure = Some e -> drainBody b = (None, (io.ReadAll b).2, Some e))
  /\ (failure = None -> exists r1 r2, drainBody b = (Some r1, r2, None))
  /\ ((drainBody b).1.1 = None <-> is_Some (drainBody b).2).
Proof.
  unfold drainBody. destruct b as [|s]; simpl.
  - split; [done|]. split; [eauto|]. split; [done|]. by intros [? [=]].
  - destruct (io.readErr s) as [e1|]; simpl.
    + split; [by intros e [= ->]|]. split; [done|]. split; eauto.
    + destruct (io.closeErr s) as [e2|]; simpl.
      * split; [by intros e [= ->]|]. split; [done|]. split; eauto.
      * split; [done|]. split; [eauto|]. split; [done|]. by intros [? [=]].
Qed.

(** ** Failures of the body hash *)

(** X3. [GetBodyHash] fails exactly when the request has a body whose read or
    close reports an error [e]. The error returned then carries the message
    [can not read body of request while calculating body hash: ] followed
    by the message of [e]; no header is written, and the [ContentLength]
    field, the method, the URL and the host are left as they were. *)
Theorem GetBodyHash_failure (r : http.Request) :
  (forall err, (GetBodyHash r).1 = Failed err ->
     exists body e,
       http.Body r = Some body
       /\ (drainBody body).2 = Some e
       /\ Error err
          = "can not read body of request while calculating body hash: " +:+ Error e
       /\ http.Header (GetBodyHash r).2 = http.Header r
       /\ http.ContentLength (GetBodyHash r).2 = http.ContentLength r
       /\ http.Method (GetBodyHash r).2 = http.Method r
       /\ http.URL (GetBodyHash r).2 = http.URL r
       /\ http.Host (GetBodyHash r).2 = http.Host r)
  /\ (forall body e, http.Body r = Some body -> (drainBody body).2 = Some e ->
        (GetBodyHash r).1 = Failed (bodyHashError e)).
Proof.
  unfold GetBodyHash, drainBody.
  destruct (http.Body r) as [[|[p [e1|] [e2|]]]|]; simpl; (split; [|by intros body e [= <-] [= <-]]).
  all: try done.
  - intros err [= <-]. eexists _, e1. simpl. repeat split; done.
  - intros err [= <-]. eexists _, e1. simpl. repeat split; done.
  - intros err [= <-]. eexists _, e2. simpl. repeat split; done.
Qed.

(** ** Outcomes of [Sign] *)

Lemma calculateHashOfBody_fst (r : http.Request) :
  (calculateHashOfBody r).1
  = match (GetBodyHash r).1 with
    | Ok _ => Ok tt
    | Failed err => Failed err
    | Panicked => Panicked
    end
  /\ ((forall h, (GetBodyHash r).1 <> Ok h) ->
      (calculateHashOfBody r).2 = (GetBodyHash r).2).
Proof.
  unfold calculateHashOfBody. destruct (GetBodyHash r) as [[h|e|] r1]; simpl; [|done..].
  split; [done|]. intros Hne. by destruct (Hne h).
Qed.

(** X4. When the body is to be hashed and hashing it fails, [Sign] returns
    that error and the request as [GetBodyHash] left it, without consulting
    the key provider: the result is the same for every provider, bound or
    not, and for every signature primitive. *)
Theorem Sign_body_failure sign random signer (r : http.Request) err :
  ShouldHashBody signer r = true ->
  (GetBodyHash r).1 = Failed err ->
  Sign sign random signer r = (Failed err, (GetBodyHash r).2)
  /\ http.Header (GetBodyHash r).2 = http.Header r.
Proof.
  intros Hpred Hfail. split.
  - unfold Sign. rewrite Hpred.
    destruct (calculateHashOfBody_fst r) as [Hfst Hsnd].
    rewrite Hfail in Hfst.
    destruct (calculateHashOfBody r) as [res r1]. simpl in Hfst, Hsnd. subst res.
    rewrite Hsnd; [done|]. rewrite Hfail. done.
  - apply GetBodyHash_not_Ok_Header. rewrite Hfail. done.
Qed.

(** X6. What a successful [Sign] leaves alone: the method, the URL and the
    host, the bytes the body delivers, and every header other than
    [Content-Length], [X-Content-SHA256] and [Authorization]. When the
    predicate rejects body hashing, the body and the [ContentLength] field
    are untouched and [Authorization] is the only header written. *)
Theorem Sign_success_frame sign random signer (r r' : http.Request) :
  Sign sign random signer r = (Ok tt, r') ->
  http.Method r' = http.Method r /\ http.URL r' = http.URL r
  /\ http.Host r' = http.Host r
  /\ bodyBytes (http.Body r') = bodyBytes (http.Body r)
  /\ (forall k, k <> "Content-Length" -> k <> "X-Content-Sha256" -> k <> "Authorization" ->
        http.Header r' !! k = http.Header r !! k)
  /\ (ShouldHashBody signer r = false ->
      http.Body r' = http.Body r
      /\ http.ContentLength r' = http.ContentLength r
      /\ forall k, k <> "Authorization" -> http.Header r' !! k = http.Header r !! k).
Proof.
  intros Hsign.
  apply Sign_Ok in Hsign as (r1 & signature & provider & keyID & Hstep & _ & _ & _ & ->).
  destruct (ShouldHashBody signer r) eqn:Hpred.
  - apply calculateHashOfBody_Ok in Hstep as (h & r0 & Hhash & ->).
    apply GetBodyHash_Ok in Hhash as (_ & _ & Hhdr & Hm & Hu & Hh & Hb & _).
    simpl. repeat split; try done.
    intros k Hcl Hsha Hauth. rewrite Hhdr. by rewrite !Header_Set_lookup_ne.
  - subst r1. simpl. repeat split; try done.
    + intros k _ _ Hauth. by rewrite Header_Set_lookup_ne.
    + intros k Hauth. by rewrite Header_Set_lookup_ne.
Qed.

(** ** What is signed *)

Lemma Header_Get_Set_canonical (h : http.Header_t) key key' value :
  textproto_CanonicalMIMEHeaderKey key = textproto_CanonicalMIMEHeaderKey key' ->
  http.Header_Get (http.Header_Set h key value) key' = value.
Proof.
  intros Heq. unfold http.Header_Get, http.Header_Set. by rewrite Heq, lookup_insert_eq.
Qed.

(** X7. The body headers are signed as the body-hash step wrote them: after a
    successful [calculateHashOfBody], the signing line of a header configured
    as [content-length] (in any case) carries the measured length of the
    body, and the line of [x-content-sha256] carries the base64 SHA-256 of
    the body. *)
Theorem signed_body_headers (r r1 : http.Request) (name : string) :
  calculateHashOfBody r = (Ok tt, r1) ->
  let B := bodyBytes (http.Body r) in
  (strings_ToLower name = "content-length" ->
   signingPart r1 name = "content-length: " +:+ fmt_int64 (Z.of_nat (length B)))
  /\ (strings_ToLower name = "x-content-sha256" ->
      signingPart r1 name
      = "x-content-sha256: " +:+ base64_EncodeToString (sha256_Sum256 B)).
Proof.
  intros Hcalc B.
  apply calculateHashOfBody_Ok in Hcalc as (h & r0 & Hhash & ->).
  apply GetBodyHash_Ok in Hhash as (-> & _ & Hhdr & _).
  unfold signingPart. split; intros ->; simpl; rewrite Hhdr.
  - rewrite Header_Get_Set_ne by done. by rewrite Header_Get_Set_canonical.
  - by rewrite Header_Get_Set_canonical.
Qed.

(** X8. The signing string does not depend on the case in which the header
    names are configured: two signers whose header lists agree up to the
    case of letters, and whose predicates agree on the request, compute the
    same signing string. *)
Theorem getSigningString_configured_case (signer1 signer2 : ociRequestSigner)
    (r : http.Request) :
  strings_ToLower <$> GenericHeaders signer1 = strings_ToLower <$> GenericHeaders signer2 ->
  strings_ToLower <$> BodyHeaders signer1 = strings_ToLower <$> BodyHeaders signer2 ->
  ShouldHashBody signer1 r = ShouldHashBody signer2 r ->
  getSigningString signer1 r = getSigningString signer2 r.
Proof.
  intros Hg Hb Hp. unfold getSigningString. f_equal.
  pose proof (fillSigningParts_spec r [] (getSigningHeaders signer1 r)) as H1.
  pose proof (fillSigningParts_spec r [] (getSigningHeaders signer2 r)) as H2.
  simpl in H1, H2. rewrite H1, H2.
  assert (forall names : list string,
            signingPart r <$> names = signingPart r <$> (strings_ToLower <$> names))
    as Hlower.
  { intros names. rewrite <- list_fmap_compose. apply list_fmap_ext.
    intros _ name _. unfold signingPart. simpl. rewrite ToLower_idem. reflexivity. }
  rewrite (Hlower (getSigningHeaders signer1 r)), (Hlower (getSigningHeaders signer2 r)).
  f_equal. rewrite (getSigningHeaders_spec signer1), (getSigningHeaders_spec signer2).
  unfold spec_signingHeaderList.
  rewrite Hp. destruct (ShouldHashBody signer2 r); [|exact Hg].
  rewrite !fmap_app. by rewrite Hg, Hb.
Qed.


(** ** The predicate and the body-hash step *)

Lemma predefined_predicates_read_marker :
  readsMethodAndMarker defaultBodyHashPredicate
  /\ readsMethodAndMarker excludeBodyHashPredicate.
Proof.
  split; intros r1 r2 Hm Hmarker;
    unfold defaultBodyHashPredicate, excludeBodyHashPredicate; by rewrite ?Hm, ?Hmarker.
Qed.

(** The body-hash step keeps the method and the marker header. *)
Lemma afterBodyHash_method_marker signer (r : http.Request) :
  http.Method (afterBodyHash signer r) = http.Method r
  /\ http.URL (afterBodyHash signer r) = http.URL r
  /\ http.Host (afterBodyHash signer r) = http.Host r
  /\ http.Header_Get (http.Header (afterBodyHash signer r)) "X-Nosql-Hash-Body"
     = http.Header_Get (http.Header r) "X-Nosql-Hash-Body".
Proof.
  unfold afterBodyHash. destruct (ShouldHashBody signer r); [|done].
  assert (http.Header (calculateHashOfBody r).2 !! "X-Nosql-Hash-Body"
          = http.Header r !! "X-Nosql-Hash-Body") as Hmarker
    by (by apply calculateHashOfBody_frame).
  unfold http.Header_Get.
  change (textproto_CanonicalMIMEHeaderKey "X-Nosql-Hash-Body") with "X-Nosql-Hash-Body".
  rewrite Hmarker. repeat split; try done; unfold calculateHashOfBody, GetBodyHash.
  all: destruct (http.Body r) as [[|[p [e1|] [e2|]]]|]; done.
Qed.

(** X10. A predicate that reads the method and the marker header only, as
    the predefined ones do, gives the same answer before and after the
    body-hash step: the body headers are signed, and listed in the
    [Authorization] header, exactly when the body was hashed. *)
Theorem Sign_predicate_stable signer (r : http.Request) :
  readsMethodAndMarker (ShouldHashBody signer) ->
  ShouldHashBody signer (afterBodyHash signer r) = ShouldHashBody signer r
  /\ getSigningHeaders signer (afterBodyHash signer r)
     = GenericHeaders signer ++ (if ShouldHashBody signer r then BodyHeaders signer else []).
Proof.
  intros Hreads.
  destruct (afterBodyHash_method_marker signer r) as (Hm & _ & _ & Hmarker).
  assert (ShouldHashBody signer (afterBodyHash signer r) = ShouldHashBody signer r) as Hp
    by (by apply Hreads).
  split; [exact Hp|]. unfold getSigningHeaders. rewrite Hp. simpl.
  destruct (ShouldHashBody signer r); [done|]. by rewrite app_nil_r.
Qed.

(** A predicate that reads a header written by the body-hash step can change
    its answer in between: here the body is hashed, and its headers are
    written, but they are not among the signing headers. *)
Example Sign_predicate_unstable :
  let signer := RequestSignerWithBodyHashingPredicate (Some exampleProvider)
                  defaultGenericHeaders defaultBodyHeaders exampleLengthPredicate in
  ShouldHashBody signer examplePost = true
  /\ http.Header_Get (http.Header (afterBodyHash signer examplePost)) "Content-Length" = "5"
  /\ getSigningHeaders signer (afterBodyHash signer examplePost) = defaultGenericHeaders.
Proof. vm_compute. repeat split. Qed.

(** ** Signing a signed request again *)








(** ** The size of the body hash *)

Lemma string_length_append (s t : string) :
  String.length (s +:+ t) = (String.length s + String.length t)%nat.
Proof.
  induction s as [|c s IH]; [done|].
  change (S (String.length (s +:+ t)) = S (String.length s + String.length t)).
  by rewrite IH.
Qed.

Lemma base64_digit_length (i : Z) : String.length (base64_digit i) = 1%nat.
Proof.
  unfold base64_digit.
  assert (Z.to_nat (i mod 64) < 64)%nat as Hlt.
  { pose proof (Z.mod_pos_bound i 64). lia. }
  revert Hlt. generalize (Z.to_nat (i mod 64)). intros n Hlt.
  do 64 (destruct n as [|n]; [reflexivity|]). lia.
Qed.

Transparent sha256_Sum256 base64_EncodeToString.

(** The standard encoding writes four characters for every three bytes,
    the last group padded. *)
Lemma base64_EncodeToString_length (src : list byte) :
  String.length (base64_EncodeToString src) = (4 * ((length src + 2) / 3))%nat.
Proof.
  assert (forall n (l : list byte), (length l <= n)%nat ->
            String.length (base64_EncodeToString l) = (4 * ((length l + 2) / 3))%nat) as H.
  { induction n as [|n IH]; intros l Hlen.
    - destruct l; [reflexivity | simpl in Hlen; lia].
    - destruct l as [|a [|b [|c rest]]].
      + reflexivity.
      + change (base64_EncodeToString [a])
          with (base64_digit (Z.shiftr (Z.shiftl (Z_of_byte a) 16) 18)
                +:+ base64_digit (Z.shiftr (Z.shiftl (Z_of_byte a) 16) 12) +:+ "==").
        rewrite !string_length_append, !base64_digit_length. reflexivity.
      + set (v := Z.lor (Z.shiftl (Z_of_byte a) 16) (Z.shiftl (Z_of_byte b) 8)).
        change (base64_EncodeToString [a; b])
          with (base64_digit (Z.shiftr v 18) +:+ base64_digit (Z.shiftr v 12)
                +:+ base64_digit (Z.shiftr v 6) +:+ "=").
        rewrite !string_length_append, !base64_digit_length. reflexivity.
      + set (v := Z.lor (Z.lor (Z.shiftl (Z_of_byte a) 16) (Z.shiftl (Z_of_byte b) 8))
                        (Z_of_byte c)).
        change (base64_EncodeToString (a :: b :: c :: rest))
          with (base64_digit (Z.shiftr v 18) +:+ base64_digit (Z.shiftr v 12)
                +:+ base64_digit (Z.shiftr v 6) +:+ base64_digit v
                +:+ base64_EncodeToString rest).
        rewrite !string_length_append, !base64_digit_length.
        rewrite IH by (simpl in Hlen; lia). simpl length.
        replace (S (S (S (length rest))) + 2)%nat with (1 * 3 + (length rest + 2))%nat by lia.
        rewrite Nat.div_add_l by lia. lia. }
  by apply (H (length src)).
Qed.

(** A SHA-256 digest has 32 bytes. *)
Lemma sha256_Sum256_length (data : list byte) : length (sha256_Sum256 data) = 32%nat.
Proof.
  unfold sha256_Sum256.
  generalize (sha_blocks (length (sha_words (sha_pad data))) sha_H0 (sha_words (sha_pad data))).
  intros st. reflexivity.
Qed.

Opaque sha256_Sum256 base64_EncodeToString.

(** X12. Whatever the body, the hash that [hashAndEncode] returns, which
    [GetBodyHash] hands to the [X-Content-SHA256] header, is a string of
    exactly 44 characters. *)
Theorem hashAndEncode_length (data : list byte) (r : http.Request) :
  String.length (hashAndEncode data) = 44%nat
  /\ (forall h r', GetBodyHash r = (Ok h, r') -> String.length h = 44%nat).
Proof.
  assert (forall d, String.length (hashAndEncode d) = 44%nat) as Hlen.
  { intros d. unfold hashAndEncode.
    by rewrite base64_EncodeToString_length, sha256_Sum256_length. }
  split; [apply Hlen|]. intros h r' Hok.
  apply GetBodyHash_Ok in Hok as (-> & _). apply Hlen.
Qed.

(** * Further properties of the URL-based retriever *)

Section RetrieverScenarios.

Context {x509_Certificate : Type}.
Variable parseCertificate : list byte -> option x509_Certificate.
Variable parsePrivateKey : list byte -> string -> option rsa_PrivateKey.

Local Abbreviation Refresh := (retriever.Refresh parseCertificate parsePrivateKey).
Local Abbreviation refreshAll := (retriever.refreshAll parseCertificate parsePrivateKey).

Lemma Refresh_pairedMaterial client
    (r : retriever.urlBasedX509CertificateRetriever x509_Certificate) :
  retriever.pairedMaterial r -> retriever.pairedMaterial (Refresh client r).2.
Proof.
  intros Hr. unfold retriever.Refresh.
  destruct (retriever.renewCertificate _ client _) as [[certRaw cert]|e1]; [|done].
  destruct (String.eqb (retriever.privateKeyURL r) "") eqn:Hurl.
  - unfold retriever.pairedMaterial. simpl. by rewrite Hurl.
  - destruct (retriever.renewPrivateKey _ client _ _) as [[keyRaw key]|e2]; [|done].
    unfold retriever.pairedMaterial. simpl. rewrite Hurl. eauto.
Qed.

Lemma refreshAll_pairedMaterial clients
    (r : retriever.urlBasedX509CertificateRetriever x509_Certificate) :
  retriever.pairedMaterial r -> retriever.pairedMaterial (refreshAll clients r).
Proof.
  revert r. induction clients as [|client rest IH]; intros r Hr; [done|].
  unfold retriever.refreshAll in *. simpl. apply IH. by apply Refresh_pairedMaterial.
Qed.

(** X13. Atomic pairing, on the retriever as modelled from the
    specification: after any history of refresh attempts on a retriever
    created empty, the certificate bytes are present exactly when the parsed
    certificate is; without a private-key URL both key accessors return
    nothing; with one, the key bytes and the parsed key are present exactly
    when the certificate is. *)
Theorem accessors_paired (clients : list retriever.Client)
    (certURL privateKeyURL passphrase : string) :
  let r := refreshAll clients
             (retriever.newURLBasedX509CertificateRetriever certURL privateKeyURL passphrase) in
  (is_Some (retriever.CertificatePemRaw r) <-> is_Some (retriever.Certificate r))
  /\ (privateKeyURL = "" ->
      retriever.PrivateKeyPemRaw r = None /\ retriever.PrivateKey r = None)
  /\ (privateKeyURL <> "" ->
      (is_Some (retriever.CertificatePemRaw r) <-> is_Some (retriever.PrivateKeyPemRaw r))
      /\ (is_Some (retriever.CertificatePemRaw r) <-> is_Some (retriever.PrivateKey r))).
Proof.
  intros r.
  assert (retriever.pairedMaterial r) as Hpaired by (by apply refreshAll_pairedMaterial).
  assert (retriever.privateKeyURL r = privateKeyURL) as Hurl
    by apply (refreshAll_config parseCertificate parsePrivateKey clients).
  unfold retriever.pairedMaterial in Hpaired. rewrite Hurl in Hpaired.
  unfold retriever.CertificatePemRaw, retriever.Certificate, retriever.PrivateKeyPemRaw,
    retriever.PrivateKey.
  destruct (retriever.material r) as [m|]; simpl.
  - split; [split; eauto|]. split.
    + intros ->. simpl in Hpaired. done.
    + intros Hne. apply String.eqb_neq in Hne. rewrite Hne in Hpaired.
      destruct Hpaired as [Hraw Hkey]. split; split; eauto.
  - split; [split; intros [? [=]]|]. split; [done|].
    intros _. split; split; intros [? [=]].
Qed.

(** X14. The scenario of the tests that refresh successfully, on the
    retriever as modelled from the specification: when the certificate is
    fetched and parses, and either no private-key URL is configured or the
    key is fetched and parses, [Refresh] reports no error, and the accessors
    return the fetched certificate bytes and the parsed certificate, with
    the fetched key bytes and the parsed key when a private-key URL is
    configured and nothing otherwise. *)
Theorem Refresh_success client
    (r : retriever.urlBasedX509CertificateRetriever x509_Certificate)
    (certRaw : list byte) (cert : x509_Certificate) :
  retriever.fetch client (retriever.certURL r) = inl certRaw ->
  parseCertificate certRaw = Some cert ->
  (retriever.privateKeyURL r = "" ->
   (Refresh client r).1 = None
   /\ retriever.CertificatePemRaw (Refresh client r).2 = Some certRaw
   /\ retriever.Certificate (Refresh client r).2 = Some cert
   /\ retriever.PrivateKeyPemRaw (Refresh client r).2 = None
   /\ retriever.PrivateKey (Refresh client r).2 = None)
  /\ (forall keyRaw key,
        retriever.privateKeyURL r <> "" ->
        retriever.fetch client (retriever.privateKeyURL r) = inl keyRaw ->
        parsePrivateKey keyRaw (retriever.passphrase r) = Some key ->
        (Refresh client r).1 = None
        /\ retriever.CertificatePemRaw (Refresh client r).2 = Some certRaw
        /\ retriever.Certificate (Refresh client r).2 = Some cert
        /\ retriever.PrivateKeyPemRaw (Refresh client r).2 = Some keyRaw
        /\ retriever.PrivateKey (Refresh client r).2 = Some key).
Proof.
  intros Hfetch Hparse. unfold retriever.Refresh, retriever.renewCertificate.
  rewrite Hfetch, Hparse. split.
  - intros ->. done.
  - intros keyRaw key Hurl Hkfetch Hkparse. apply String.eqb_neq in Hurl.
    unfold retriever.renewPrivateKey. by rewrite Hurl, Hkfetch, Hkparse.
Qed.

End RetrieverScenarios.

(** ** The further properties at the worked examples *)

Lemma drainBody_readers_witness :
  drainBody (io.NopCloser (list_byte_of_string "hello"))
  = (Some (io.NopCloser (list_byte_of_string "hello")),
     io.NopCloser (list_byte_of_string "hello"), None)
  /\ (io.ReadAll (io.NopCloser (list_byte_of_string "hello"))).1
     = (list_byte_of_string "hello", None).
Proof.
  split; [reflexivity|].
  exact (proj1 (drainBody_readers (io.NopCloser (list_byte_of_string "hello")) _ _ eq_refl)).
Defined.

Lemma drainBody_failure_witness :
  drainBody exampleBrokenBody
  = (None, (io.ReadAll exampleBrokenBody).2, Some (errors_New "connection reset")).
Proof.
  exact (proj1 (drainBody_failure exampleBrokenBody) (errors_New "connection reset") eq_refl).
Defined.

Lemma GetBodyHash_failure_witness :
  (GetBodyHash exampleBrokenPost).1 = Failed (bodyHashError (errors_New "connection reset")).
Proof.
  exact (proj2 (GetBodyHash_failure exampleBrokenPost) exampleBrokenBody
           (errors_New "connection reset") eq_refl eq_refl).
Defined.

Lemma Sign_body_failure_witness :
  ShouldHashBody exampleUnboundSigner exampleBrokenPost = true
  /\ Sign exampleSignPKCS1v15 [] exampleUnboundSigner exampleBrokenPost
     = (Failed (bodyHashError (errors_New "connection reset")),
        (GetBodyHash exampleBrokenPost).2).
Proof.
  split; [reflexivity|].
  exact (proj1 (Sign_body_failure exampleSignPKCS1v15 [] exampleUnboundSigner
                  exampleBrokenPost _ eq_refl eq_refl)).
Defined.

Lemma Sign_examplePost_Ok :
  Sign exampleSignPKCS1v15 [] (DefaultRequestSigner (Some exampleProvider)) examplePost
  = (Ok tt,
     (Sign exampleSignPKCS1v15 [] (DefaultRequestSigner (Some exampleProvider))
        examplePost).2).
Proof. vm_compute. reflexivity. Qed.

Lemma Sign_success_frame_witness :
  http.Method (Sign exampleSignPKCS1v15 [] (DefaultRequestSigner (Some exampleProvider))
                 examplePost).2
  = http.Method examplePost.
Proof.
  exact (proj1 (Sign_success_frame _ _ _ _ _ Sign_examplePost_Ok)).
Defined.

Lemma calculateHashOfBody_examplePost_Ok :
  calculateHashOfBody examplePost = (Ok tt, (calculateHashOfBody examplePost).2).
Proof. vm_compute. reflexivity. Qed.

Lemma signed_body_headers_witness :
  strings_ToLower "Content-Length" = "content-length"
  /\ signingPart (calculateHashOfBody examplePost).2 "Content-Length"
     = "content-length: " +:+ fmt_int64 (Z.of_nat (length (bodyBytes (http.Body examplePost)))).
Proof.
  split; [reflexivity|].
  exact (proj1 (signed_body_headers examplePost _ "Content-Length"
                  calculateHashOfBody_examplePost_Ok) eq_refl).
Defined.

Lemma getSigningString_configured_case_witness :
  getSigningString exampleMixedCaseSigner exampleGet
  = getSigningString (DefaultRequestSigner (Some exampleProvider)) exampleGet.
Proof.
  exact (getSigningString_configured_case exampleMixedCaseSigner
           (DefaultRequestSigner (Some exampleProvider)) exampleGet
           eq_refl eq_refl eq_refl).
Defined.



Lemma Sign_predicate_stable_witness :
  ShouldHashBody (DefaultRequestSigner (Some exampleProvider))
    (afterBodyHash (DefaultRequestSigner (Some exampleProvider)) examplePost)
  = ShouldHashBody (DefaultRequestSigner (Some exampleProvider)) examplePost.
Proof.
  exact (proj1 (Sign_predicate_stable (DefaultRequestSigner (Some exampleProvider))
                  examplePost (proj1 predefined_predicates_read_marker))).
Defined.



Lemma Refresh_success_witness :
  retriever.CertificatePemRaw
    (retriever.Refresh exampleParseCertificate exampleParsePrivateKey exampleServersUp
       (retriever.newURLBasedX509CertificateRetriever "http://cert" "" "")).2
  = Some (list_byte_of_string "expectedCert").
Proof.
  exact (proj1 (proj2 (proj1 (Refresh_success exampleParseCertificate exampleParsePrivateKey
                                exampleServersUp
                                (retriever.newURLBasedX509CertificateRetriever
                                   "http://cert" "" "")
                                (list_byte_of_string "expectedCert")
                                (list_byte_of_string "expectedCert") eq_refl eq_refl)
                         eq_refl))).
Defined.

Lemma Sign_keyless_Failed :
  Sign exampleSignPKCS1v15 [] exampleKeylessSigner examplePost
  = (Failed (errors_New "no private key"), afterBodyHash exampleKeylessSigner examplePost).
Proof. vm_compute. reflexivity. Qed.

Lemma Sign_Failed_causes_witness :
  (ShouldHashBody exampleKeylessSigner examplePost = true
   /\ (calculateHashOfBody examplePost).1 = Failed (errors_New "no private key"))
  \/ exists provider, KeyProvider exampleKeylessSigner = Some provider
       /\ (KeyProvider.PrivateRSAKey provider = inr (errors_New "no private key")
           \/ (exists privateKey e0,
                 KeyProvider.PrivateRSAKey provider = inl privateKey
                 /\ exampleSignPKCS1v15 [] privateKey
                      (sha256_Sum256 (list_byte_of_string
                         (getSigningString exampleKeylessSigner
                            (afterBodyHash exampleKeylessSigner examplePost)))) = inr e0
                 /\ errors_New "no private key" = signatureError e0)
           \/ KeyProvider.KeyID provider = inr (errors_New "no private key")).
Proof.
  exact (Sign_Failed_causes _ _ _ _ _ _ Sign_keyless_Failed).
Defined.

Lemma sameContent_examplePost :
  sameContent examplePost (http.with_ContentLength (http.with_Body examplePost
    (Some (io.Reader {| io.pending := list_byte_of_string "hello";
                        io.readErr := None; io.closeErr := None |}))) 5).
Proof. repeat split. Qed.

Lemma Sign_same_content_witness :
  (Sign exampleSignPKCS1v15 [] (DefaultRequestSigner (Some exampleProvider)) examplePost).1
  = (Sign exampleSignPKCS1v15 ["x"%byte] (DefaultRequestSigner (Some exampleProvider))
       (http.with_ContentLength (http.with_Body examplePost
          (Some (io.Reader {| io.pending := list_byte_of_string "hello";
                              io.readErr := None; io.closeErr := None |}))) 5)).1.
Proof.
  exact (proj1 (proj2 (Sign_same_content exampleSignPKCS1v15 [] ["x"%byte]
                         (DefaultRequestSigner (Some exampleProvider)) _ _
                         (fun _ _ _ _ => eq_refl)
                         (proj1 predefined_predicates_read_method_and_headers)
                         sameContent_examplePost))).
Defined.
